(** * camera_info: device discovery and capability report

    A shallow embedding of [src/userspace/camera_info.cpp].  The program
    talks to its host through a handful of C library calls ([getenv],
    [access], [glob], [stat], [popen], [fgets], [pclose]); their answers
    are gathered in a [World] record, and every call and every write to
    [std::cout] / [std::cerr] is recorded, in program order, as an
    [Event].  Functions of the source become computations in the monad
    [M], which threads the number of child processes started so far and
    collects the events. *)

From Stdlib Require Import String Ascii List ZArith Lia Bool Arith.
From Equations Require Import Equations.
From Equations.Prop Require Import Logic.
Import ListNotations.

Open Scope string_scope.

(** ** Characters and C strings *)

Definition NUL : ascii := "000"%char.
Definition LF : ascii := "010"%char.
Definition nl : string := String LF "".
Definition dq : string := String "034"%char "".

(** What [std::cout << p] prints for a [const char *p]: the bytes before
    the first NUL. *)
Fixpoint c_str (buf : string) : string :=
  match buf with
  | "" => ""
  | String c rest => if Ascii.eqb c NUL then "" else String c (c_str rest)
  end.

(** [std::string(n, c)]. *)
Fixpoint fill (n : nat) (c : ascii) : string :=
  match n with
  | O => ""
  | S n' => String c (fill n' c)
  end.

Fixpoint has_char (c : ascii) (s : string) : bool :=
  match s with
  | "" => false
  | String d rest => Ascii.eqb d c || has_char c rest
  end.

(** An absolute path starts with a slash. *)
Definition is_absolute (path : string) : bool :=
  match path with
  | String c _ => Ascii.eqb c "/"
  | "" => false
  end.

(** ** [fgets] and [std::getline] on the unread part of a stream *)

(** [fgets_fill room stream] copies at most [room] bytes, stopping after a
    newline; it returns the buffer contents and the unread remainder. *)
Fixpoint fgets_fill (room : nat) (stream : string) : string * string :=
  match room, stream with
  | O, _ => ("", stream)
  | S _, "" => ("", "")
  | S room', String c rest =>
      if Ascii.eqb c LF then (String c "", rest)
      else let (line, rest') := fgets_fill room' rest in (String c line, rest')
  end.

(** [fgets(buf, size, fp)]: [None] is the null pointer returned at end of
    file when nothing was read. *)
Definition fgets (size : nat) (stream : string) : option (string * string) :=
  match stream with
  | "" => None
  | _ => Some (fgets_fill (size - 1) stream)
  end.

(** [std::getline(ss, token, delim)]: [None] when the stream is exhausted
    before any character (the delimiter included) was extracted. *)
Fixpoint getline_scan (delim : ascii) (stream : string) : string * string :=
  match stream with
  | "" => ("", "")
  | String c rest =>
      if Ascii.eqb c delim then ("", rest)
      else let (token, rest') := getline_scan delim rest in (String c token, rest')
  end.

Definition getline (stream : string) (delim : ascii) : option (string * string) :=
  match stream with
  | "" => None
  | _ => Some (getline_scan delim stream)
  end.

(** ** The host *)

(** A child process started by [popen]: the bytes it writes to its
    standard output, the value [pclose] returns for it and the text of
    [strerror(errno)] after that call. *)
Record Child := {
  child_stdout : string;
  pclose_ret : Z;
  pclose_strerror : string
}.

Record GlobResult := {
  glob_ret : Z;
  gl_pathv : list string
}.

Record World := {
  getenv : string -> option string;
  access_X_OK : string -> Z;
  glob : string -> GlobResult;
  stat : string -> option Z;
  popen : nat -> string -> option Child
}.

(** [stat] answers [None] when the call fails and the [st_mode] word
    otherwise; [popen] answers [None] for a null stream.  The first
    argument of [popen] is the number of [popen] calls made before this
    one in the run, so a backend may answer differently each time. *)

(** File-type bits of [st_mode], as [<sys/stat.h>] has them on Linux
    ([S_IFMT] is octal 170000, [S_IFCHR] octal 020000). *)
Definition S_IFMT : Z := 61440.
Definition S_IFCHR : Z := 8192.
Definition S_ISCHR (mode : Z) : bool := Z.eqb (Z.land mode S_IFMT) S_IFCHR.

(** The wait status [pclose] returns on Linux for a child that exited
    with [code]: the low eight bits of the code, shifted left by eight. *)
Definition exit_status (code : Z) : Z := Z.shiftl (Z.land code 255) 8.

(** ** Events and the monad *)

Inductive Event :=
| EGetenv (name : string)
| EAccess (path : string)
| EGlob (pattern : string)
| EStat (path : string)
| EPopen (cmd : string)
| EPclose
| EGlobfree
| Cout (text : string)
| Fwd (line : string)
| Cerr (text : string).

(** [Cout] is text of the program's own written to [std::cout], [Fwd] a
    line of a child's output copied to [std::cout], [Cerr] text written
    to [std::cerr]. *)

Definition Trace := list Event.

Definition M (A : Type) : Type := nat -> A * Trace * nat.

Definition ret {A} (a : A) : M A := fun n => (a, [], n).

Definition bind {A B} (m : M A) (f : A -> M B) : M B :=
  fun n =>
    let '(a, t1, n1) := m n in
    let '(b, t2, n2) := f a n1 in
    (b, (t1 ++ t2)%list, n2).

Definition tell (e : Event) : M unit := fun n => (tt, [e], n).
Definition tells (t : Trace) : M unit := fun n => (tt, t, n).

Declare Scope io_scope.
Delimit Scope io_scope with io.
Notation "x <- m ;; k" := (bind m (fun x => k))
  (at level 61, m at next level, right associativity) : io_scope.
Notation "m ;; k" := (bind m (fun _ => k))
  (at level 61, right associativity) : io_scope.
Open Scope io_scope.

Definition result {A} (r : A * Trace * nat) : A := fst (fst r).
Definition trace {A} (r : A * Trace * nat) : Trace := snd (fst r).
Definition spawned {A} (r : A * Trace * nat) : nat := snd r.

(** The bytes the program writes to [std::cout] and to [std::cerr].  The
    first are all of the run's standard output, since a child's output
    goes to the pipe of [popen].  A child inherits the standard error of
    the program; what it writes there itself is not part of the model,
    so [stderr_of] is the whole of standard error only where no child is
    started. *)
Fixpoint stdout_of (t : Trace) : string :=
  match t with
  | [] => ""
  | Cout s :: t' => s ++ stdout_of t'
  | Fwd s :: t' => s ++ stdout_of t'
  | _ :: t' => stdout_of t'
  end.

Fixpoint stderr_of (t : Trace) : string :=
  match t with
  | [] => ""
  | Cerr s :: t' => s ++ stderr_of t'
  | _ :: t' => stderr_of t'
  end.

(** The commands handed to [popen], in order. *)
Fixpoint popen_cmds (t : Trace) : list string :=
  match t with
  | [] => []
  | EPopen c :: t' => c :: popen_cmds t'
  | _ :: t' => popen_cmds t'
  end.

(** ** System calls *)

Definition sys_getenv (w : World) (name : string) : M (option string) :=
  tell (EGetenv name) ;; ret (getenv w name).

Definition sys_access (w : World) (path : string) : M Z :=
  tell (EAccess path) ;; ret (access_X_OK w path).

Definition sys_glob (w : World) (pattern : string) : M GlobResult :=
  tell (EGlob pattern) ;; ret (glob w pattern).

Definition sys_stat (w : World) (path : string) : M (option Z) :=
  tell (EStat path) ;; ret (stat w path).

Definition sys_popen (w : World) (cmd : string) : M (option Child) :=
  fun n => (popen w n cmd, [EPopen cmd], S n).

(** ** camera_info.cpp *)

(** [isCharDevice]: false when [stat] fails, [S_ISCHR(st.st_mode)]
    otherwise. *)
Definition isCharDevice (w : World) (path : string) : M bool :=
  st <- sys_stat w path ;;
  match st with
  | None => ret false
  | Some mode => ret (S_ISCHR mode)
  end.

Lemma getline_scan_shorter delim stream token rest :
  getline_scan delim stream = (token, rest) ->
  String.length rest <= String.length stream - 1.
Proof.
  revert token rest.
  induction stream as [|c s IH]; intros token rest; simpl.
  - intros [= <- <-]. simpl. lia.
  - destruct (Ascii.eqb c delim).
    + intros [= <- <-]. lia.
    + destruct (getline_scan delim s) as [tk r] eqn:E.
      intros [= <- <-]. specialize (IH _ _ eq_refl). lia.
Qed.

Lemma getline_shorter stream delim token rest :
  getline stream delim = Some (token, rest) ->
  String.length rest < String.length stream.
Proof.
  destruct stream as [|c s]; [discriminate|].
  unfold getline. intros H. injection H as H.
  apply (getline_scan_shorter delim (String c s)) in H. simpl in *. lia.
Qed.

(** The [while (std::getline(ss, token, ':'))] loop of [findV4l2Ctl]. *)
Equations? findV4l2Ctl_loop (w : World) (ss : string) : M (option string)
  by wf (String.length ss) lt :=
  findV4l2Ctl_loop w ss with inspect (getline ss ":") := {
    | exist _ None _ => ret None
    | exist _ (Some (token, rest)) e =>
        if String.eqb token "" then findV4l2Ctl_loop w rest
        else
          let candidate := token ++ "/v4l2-ctl" in
          r <- sys_access w candidate ;;
          if Z.eqb r 0 then ret (Some candidate)
          else findV4l2Ctl_loop w rest }.
Proof.
  all: eapply getline_shorter; eassumption.
Qed.

(** [findV4l2Ctl]: [None] stands for [false], [Some path] for [true] with
    [outPath] set to [path]. *)
Definition findV4l2Ctl (w : World) : M (option string) :=
  pathEnv <- sys_getenv w "PATH" ;;
  match pathEnv with
  | None => ret None
  | Some paths => findV4l2Ctl_loop w paths
  end.

Lemma fgets_fill_shorter room stream line rest :
  fgets_fill (S room) stream = (line, rest) ->
  String.length rest <= String.length stream - 1.
Proof.
  revert stream line rest.
  induction room as [|room IH]; intros stream line rest.
  - destruct stream as [|c s]; simpl.
    + intros [= <- <-]. simpl. lia.
    + destruct (Ascii.eqb c LF); intros [= <- <-]; lia.
  - destruct stream as [|c s].
    + simpl. intros [= <- <-]. simpl. lia.
    + change (fgets_fill (S (S room)) (String c s))
        with (if Ascii.eqb c LF then (String c "", s)
              else let (l, r) := fgets_fill (S room) s in (String c l, r)).
      destruct (Ascii.eqb c LF).
      * intros [= <- <-]. simpl. lia.
      * destruct (fgets_fill (S room) s) as [l r] eqn:E.
        intros [= <- <-]. apply IH in E. simpl. lia.
Qed.

Lemma fgets_shorter room stream line rest :
  fgets (S (S room)) stream = Some (line, rest) ->
  String.length rest < String.length stream.
Proof.
  destruct stream as [|c s]; [discriminate|].
  intros H.
  assert (H' : fgets_fill (S room) (String c s) = (line, rest)).
  { unfold fgets in H. change (S (S room) - 1) with (S room) in H.
    congruence. }
  apply fgets_fill_shorter in H'. simpl in H' |- *. lia.
Qed.

(** [sizeof(line)] for [char line[1024]]. *)
Definition sizeof_line : nat := 1024.

(** The [while (fgets(line, sizeof(line), fp) != nullptr)] loop of
    [runCommandAndPrint] on the unread output of the child; it yields the
    writes made and the final value of [printedAny]. *)
Equations? fgets_loop (stream : string) (printedAny : bool) : Trace * bool
  by wf (String.length stream) lt :=
  fgets_loop stream printedAny with inspect (fgets sizeof_line stream) := {
    | exist _ None _ => ([], printedAny)
    | exist _ (Some (line, rest)) e =>
        let (t, b) := fgets_loop rest true in (Fwd (c_str line) :: t, b) }.
Proof.
  eapply (fgets_shorter 1022). exact e.
Qed.

(** [runCommandAndPrint]: the answer is the [int] it returns. *)
Definition runCommandAndPrint (w : World) (cmd : string) : M Z :=
  fp <- sys_popen w cmd ;;
  match fp with
  | None =>
      tell (Cerr ("Failed to run command: " ++ cmd ++ nl)) ;;
      ret (-1)%Z
  | Some child =>
      let (written, printedAny) := fgets_loop (child_stdout child) false in
      tells written ;;
      (if negb printedAny then tell (Cout ("(no output)" ++ nl)) else ret tt) ;;
      tell EPclose ;;
      let status := pclose_ret child in
      if Z.eqb status (-1) then
        tell (Cerr ("Error closing command stream: "
                    ++ pclose_strerror child ++ nl)) ;;
        ret (-1)%Z
      else ret 0%Z
  end.

Definition rule : string := fill 80 "=".
Definition label_all : string :=
  ">>> BASIC INFORMATION AND CAPABILITIES (v4l2-ctl --all)" ++ nl.
Definition label_formats : string :=
  ">>> SUPPORTED FORMATS AND RESOLUTIONS (v4l2-ctl --list-formats-ext)" ++ nl.

(** The two command lines [inspectDevice] builds in its [ostringstream]s. *)
Definition cmd_all (v4l2CtlPath device : string) : string :=
  dq ++ v4l2CtlPath ++ dq ++ " --device=" ++ dq ++ device ++ dq ++ " --all".
Definition cmd_formats (v4l2CtlPath device : string) : string :=
  dq ++ v4l2CtlPath ++ dq ++ " --device=" ++ dq ++ device ++ dq
     ++ " --list-formats-ext".

Definition inspectDevice (w : World) (v4l2CtlPath device : string) : M unit :=
  tell (Cout (rule ++ nl)) ;;
  tell (Cout ("DEVICE: " ++ device ++ nl)) ;;
  tell (Cout (rule ++ nl ++ nl)) ;;
  tell (Cout label_all) ;;
  _ <- runCommandAndPrint w (cmd_all v4l2CtlPath device) ;;
  tell (Cout nl) ;;
  tell (Cout label_formats) ;;
  _ <- runCommandAndPrint w (cmd_formats v4l2CtlPath device) ;;
  tell (Cout nl).

Definition not_found_diag : string :=
  "ERROR: `v4l2-ctl` not found in PATH." ++ nl
  ++ "Install `v4l-utils` (e.g. `sudo apt-get install v4l-utils`) "
  ++ "to use this inspection tool." ++ nl.

Definition intro_text : list string :=
  [ "Camera / V4L2 Device Inspection (C++ version)" ++ nl;
    "---------------------------------------------" ++ nl ++ nl;
    "Context:" ++ nl;
    "- /dev/video* nodes are exposed by the Linux kernel's V4L2 subsystem." ++ nl;
    "- Drivers (e.g. `uvcvideo` for USB cameras) register these devices." ++ nl;
    "- This program uses `v4l2-ctl` as a front-end to V4L2 ioctls to report" ++ nl;
    "  the driver- and hardware-exposed capabilities to userspace." ++ nl ++ nl ].

Definition no_glob_match_msg : string :=
  "No /dev/video* devices found. Is a camera connected and recognized?" ++ nl.
Definition no_char_device_msg : string :=
  "No character-device /dev/video* nodes found." ++ nl.

(** The [for (size_t i = 0; i < g.gl_pathc; ++i)] loop of [main]: the
    paths pushed onto [devices], in order. *)
Fixpoint scan_paths (w : World) (pathv : list string) : M (list string) :=
  match pathv with
  | [] => ret []
  | path :: more =>
      chr <- isCharDevice w path ;;
      if negb chr then scan_paths w more
      else
        tell (Cout ("  - " ++ path ++ nl)) ;;
        devices <- scan_paths w more ;;
        ret (path :: devices)
  end.

(** The [for (const auto &dev : devices)] loop of [main]. *)
Fixpoint inspect_all (w : World) (v4l2CtlPath : string) (devices : list string)
  : M unit :=
  match devices with
  | [] => ret tt
  | dev :: more =>
      inspectDevice w v4l2CtlPath dev ;;
      inspect_all w v4l2CtlPath more
  end.

(** [main]: the answer is the exit status. *)
Definition main (w : World) : M Z :=
  found <- findV4l2Ctl w ;;
  match found with
  | None =>
      tell (Cerr not_found_diag) ;;
      ret 1%Z
  | Some v4l2CtlPath =>
      tells (map Cout intro_text) ;;
      g <- sys_glob w "/dev/video*" ;;
      if negb (Z.eqb (glob_ret g) 0) || Nat.eqb (List.length (gl_pathv g)) 0 then
        tell (Cout no_glob_match_msg) ;;
        tell EGlobfree ;;
        ret 0%Z
      else
        tell (Cout ("Discovered video devices:" ++ nl)) ;;
        devices <- scan_paths w (gl_pathv g) ;;
        tell (Cout nl) ;;
        match devices with
        | [] =>
            tell (Cout no_char_device_msg) ;;
            tell EGlobfree ;;
            ret 0%Z
        | _ :: _ =>
            inspect_all w v4l2CtlPath devices ;;
            tell EGlobfree ;;
            ret 0%Z
        end
  end.

(** A run of the program: no child has been started yet. *)
Definition run (w : World) : Z * Trace * nat := main w 0.
Definition exit_code (w : World) : Z := result (run w).

(** [st_mode] of a character device ([crw-rw----]) and of a regular file
    ([-rw-r--r--]). *)
Definition mode_chr : Z := 8624.
Definition mode_reg : Z := 33188.

(** ** Sample hosts *)

Module Samples.

Definition text_child (out : string) : Child :=
  {| child_stdout := out; pclose_ret := 0; pclose_strerror := "" |}.

Definition path_is (value : string) (name : string) : option string :=
  if String.eqb name "PATH" then Some value else None.

Definition only_executable (file : string) (path : string) : Z :=
  if String.eqb path file then 0%Z else (-1)%Z.

Definition video_nodes (w : World) (nodes : list (string * Z)) : World :=
  {| getenv := getenv w;
     access_X_OK := access_X_OK w;
     glob := fun _ => {| glob_ret := 0; gl_pathv := map fst nodes |};
     stat := fun path =>
       option_map snd (find (fun node => String.eqb (fst node) path) nodes);
     popen := popen w |}.

(** A host with the backend in [/usr/bin] and no video node. *)
Definition bare : World := {|
  getenv := path_is "/usr/local/bin::/usr/bin";
  access_X_OK := only_executable "/usr/bin/v4l2-ctl";
  glob := fun _ => {| glob_ret := 3; gl_pathv := [] |};
  stat := fun _ => None;
  popen := fun n _ =>
    match n with
    | O => Some (text_child ("Driver name: uvcvideo" ++ nl))
    | _ => Some {| child_stdout := "";
                   pclose_ret := exit_status 1; pclose_strerror := "" |}
    end
|}.

(** One camera and a regular file that matches the pattern. *)
Definition two_nodes : World :=
  video_nodes bare [("/dev/video0", mode_chr); ("/dev/video1", mode_reg)].

Definition only_regular : World :=
  video_nodes bare [("/dev/video1", mode_reg)].

(** No backend anywhere on the search path. *)
Definition no_backend : World := {|
  getenv := getenv two_nodes;
  access_X_OK := fun _ => (-1)%Z;
  glob := glob two_nodes;
  stat := stat two_nodes;
  popen := popen two_nodes
|}.

(** The search path names the current directory. *)
Definition relative_entry : World := {|
  getenv := path_is ".:/usr/bin";
  access_X_OK := only_executable "./v4l2-ctl";
  glob := glob two_nodes;
  stat := stat two_nodes;
  popen := popen two_nodes
|}.

(** [popen] fails for the first query. *)
Definition first_spawn_fails : World := {|
  getenv := getenv two_nodes;
  access_X_OK := access_X_OK two_nodes;
  glob := glob two_nodes;
  stat := stat two_nodes;
  popen := fun n cmd => match n with O => None | _ => popen two_nodes n cmd end
|}.

(** A backend that writes a NUL byte. *)
Definition binary_output : string :=
  String "a" (String NUL (String "b" nl)).

Definition nul_backend : World := {|
  getenv := getenv two_nodes;
  access_X_OK := access_X_OK two_nodes;
  glob := glob two_nodes;
  stat := stat two_nodes;
  popen := fun _ _ => Some (text_child binary_output)
|}.

(** A backend that never writes anything. *)
Definition silent_backend : World := {|
  getenv := getenv two_nodes;
  access_X_OK := access_X_OK two_nodes;
  glob := glob two_nodes;
  stat := stat two_nodes;
  popen := fun _ _ => Some (text_child "")
|}.

(** The host of [two_nodes] with the backend installed elsewhere and
    exiting with another status. *)
Definition two_nodes_moved : World := {|
  getenv := path_is "/opt/v4l/bin";
  access_X_OK := only_executable "/opt/v4l/bin/v4l2-ctl";
  glob := glob two_nodes;
  stat := stat two_nodes;
  popen := fun n _ =>
    match n with
    | O => Some {| child_stdout := "Driver name: uvcvideo" ++ nl;
                   pclose_ret := exit_status 2; pclose_strerror := "" |}
    | _ => Some (text_child "")
    end
|}.

End Samples.

(** ** The search path *)

(** The components of a colon-separated list. *)
Fixpoint split_path (paths : string) : list string :=
  match paths with
  | "" => [""]
  | String c rest =>
      if Ascii.eqb c ":" then "" :: split_path rest
      else match split_path rest with
           | first :: others => String c first :: others
           | [] => [String c ""]
           end
  end.

Definition nonempty (s : string) : bool := negb (String.eqb s "").

(** The search-path entries: the non-empty components, in order. *)
Definition search_path_entries (paths : string) : list string :=
  filter nonempty (split_path paths).

Definition candidate_of (entry : string) : string := entry ++ "/v4l2-ctl".

(** What the locator takes for an executable: [access(path, X_OK) == 0]. *)
Definition executable (w : World) (path : string) : bool :=
  Z.eqb (access_X_OK w path) 0.

(** The candidates probed by a left-to-right search that stops at the
    first executable one. *)
Fixpoint probed (w : World) (candidates : list string) : list string :=
  match candidates with
  | [] => []
  | c :: more => if executable w c then [c] else c :: probed w more
  end.

Lemma split_path_getline_scan paths :
  exists others,
    split_path paths = fst (getline_scan ":" paths) :: others /\
    filter nonempty others = search_path_entries (snd (getline_scan ":" paths)).
Proof.
  induction paths as [|c rest IH]; simpl.
  - exists []. split; reflexivity.
  - destruct (Ascii.eqb c ":").
    + exists (split_path rest). split; reflexivity.
    + destruct IH as (others & Hsplit & Hrest).
      rewrite Hsplit. exists others.
      destruct (getline_scan ":" rest) as [token rest']. simpl in *.
      split; [reflexivity | exact Hrest].
Qed.

Lemma search_path_entries_getline paths token rest :
  getline paths ":" = Some (token, rest) ->
  search_path_entries paths =
    ((if nonempty token then [token] else []) ++ search_path_entries rest)%list.
Proof.
  destruct paths as [|c s]; [discriminate|].
  unfold getline. intros H.
  destruct (split_path_getline_scan (String c s)) as (others & Hsplit & Hrest).
  assert (E : getline_scan ":" (String c s) = (token, rest)) by congruence.
  rewrite E in Hsplit, Hrest. simpl fst in Hsplit. simpl snd in Hrest.
  unfold search_path_entries at 1. rewrite Hsplit. simpl filter.
  rewrite Hrest. destruct (nonempty token); reflexivity.
Qed.

(** The loop is a left-to-right search over the candidates of the
    non-empty entries; it starts no process. *)
Lemma findV4l2Ctl_loop_spec w ss n :
  findV4l2Ctl_loop w ss n =
    (find (executable w) (map candidate_of (search_path_entries ss)),
     map EAccess (probed w (map candidate_of (search_path_entries ss))),
     n).
Proof.
  revert n. funelim (findV4l2Ctl_loop w ss); intros n.
  - rewrite (search_path_entries_getline _ _ _ e).
    unfold nonempty.
    destruct (String.eqb token "") eqn:Etok; simpl.
    + apply H; exact n.
    + unfold bind, sys_access, tell, ret. simpl.
      unfold executable at 1 3. fold (candidate_of token).
      destruct (Z.eqb (access_X_OK w (candidate_of token)) 0) eqn:Eacc.
      * reflexivity.
      * rewrite H0; [reflexivity | exact 0%Z | exact n].
  - destruct ss as [|c s]; [reflexivity | discriminate].
Qed.

(** ** Reading a child's output *)

Lemma c_str_text buf : has_char NUL buf = false -> c_str buf = buf.
Proof.
  induction buf as [|c rest IH]; simpl; [reflexivity|].
  destruct (Ascii.eqb c NUL); simpl; [discriminate|].
  intros H. now rewrite IH.
Qed.

Lemma has_char_app c s t :
  has_char c (s ++ t) = has_char c s || has_char c t.
Proof.
  induction s as [|d s IH]; simpl; [reflexivity|].
  rewrite IH. now rewrite orb_assoc.
Qed.

Lemma fgets_fill_app room stream line rest :
  fgets_fill room stream = (line, rest) -> line ++ rest = stream.
Proof.
  revert stream line rest.
  induction room as [|room IH]; intros [|c s] line rest; simpl;
    try (intros [= <- <-]; reflexivity).
  destruct (Ascii.eqb c LF).
  - intros [= <- <-]. reflexivity.
  - destruct (fgets_fill room s) as [l r] eqn:E.
    intros [= <- <-]. simpl. f_equal. now apply IH.
Qed.

Lemma fgets_some size stream line rest :
  fgets size stream = Some (line, rest) ->
  fgets_fill (size - 1) stream = (line, rest).
Proof.
  destruct stream; [discriminate|].
  unfold fgets. generalize (size - 1). intros room H. congruence.
Qed.

Definition is_fwd (e : Event) : bool :=
  match e with Fwd _ => true | _ => false end.

Lemma fgets_loop_step stream printedAny line rest :
  fgets sizeof_line stream = Some (line, rest) ->
  fgets_loop stream printedAny =
    (Fwd (c_str line) :: fst (fgets_loop rest true), snd (fgets_loop rest true)).
Proof.
  intros Hread. funelim (fgets_loop stream printedAny).
  - assert (E : Some (line, rest) = Some (line0, rest0)) by congruence.
    injection E as -> ->.
    destruct (fgets_loop rest0 true). reflexivity.
  - congruence.
Qed.

(** [printedAny] ends up true exactly when the child wrote something. *)
Lemma fgets_loop_printedAny stream printedAny :
  snd (fgets_loop stream printedAny) = printedAny || nonempty stream.
Proof.
  funelim (fgets_loop stream printedAny).
  - destruct (fgets_loop rest true) as [t b] eqn:E. simpl in *.
    destruct stream; [discriminate|].
    rewrite H. unfold nonempty. simpl. now rewrite orb_true_r.
  - destruct stream; [|discriminate]. simpl. now rewrite orb_false_r.
Qed.

Lemma fgets_loop_all_fwd stream printedAny :
  forallb is_fwd (fst (fgets_loop stream printedAny)) = true.
Proof.
  funelim (fgets_loop stream printedAny).
  - destruct (fgets_loop rest true) as [t b]. simpl in *. exact H.
  - reflexivity.
Qed.

(** A child's output without NUL bytes reaches standard output whole. *)
Lemma fgets_loop_text stream printedAny :
  has_char NUL stream = false ->
  stdout_of (fst (fgets_loop stream printedAny)) = stream.
Proof.
  funelim (fgets_loop stream printedAny); intros Htext.
  - destruct (fgets_loop rest true) as [t b]. simpl in *.
    destruct stream as [|c s]; [discriminate|].
    pose proof (fgets_fill_app _ _ _ _ (fgets_some _ _ _ _ e)) as Hcat.
    rewrite <- Hcat in Htext |- *.
    rewrite has_char_app in Htext. apply orb_false_elim in Htext.
    destruct Htext as [Hline Hrest].
    rewrite (c_str_text _ Hline), (H Hrest). reflexivity.
  - destruct stream; [reflexivity | discriminate].
Qed.

(** ** What each function does, in closed form *)

(** [isCharDevice] without its event. *)
Definition is_char_device (w : World) (path : string) : bool :=
  match stat w path with
  | None => false
  | Some mode => S_ISCHR mode
  end.

Lemma isCharDevice_eq w path n :
  isCharDevice w path n = (is_char_device w path, [EStat path], n).
Proof.
  unfold isCharDevice, is_char_device, bind, sys_stat, tell, ret. simpl.
  destruct (stat w path); reflexivity.
Qed.

(** The backend found by the locator at startup, and the events of the
    search. *)
Definition located (w : World) : option string := result (findV4l2Ctl w 0).
Definition locate_events (w : World) : Trace := trace (findV4l2Ctl w 0).

Definition path_candidates (w : World) : list string :=
  match getenv w "PATH" with
  | None => []
  | Some paths => map candidate_of (search_path_entries paths)
  end.

Lemma findV4l2Ctl_eq w n :
  findV4l2Ctl w n =
    (find (executable w) (path_candidates w),
     EGetenv "PATH" :: map EAccess (probed w (path_candidates w)),
     n).
Proof.
  unfold findV4l2Ctl, path_candidates, bind, sys_getenv, tell, ret. simpl.
  destruct (getenv w "PATH") as [paths|]; [|reflexivity].
  rewrite findV4l2Ctl_loop_spec. reflexivity.
Qed.

Lemma located_eq w : located w = find (executable w) (path_candidates w).
Proof. unfold located. now rewrite findV4l2Ctl_eq. Qed.

Lemma locate_events_eq w :
  locate_events w = EGetenv "PATH" :: map EAccess (probed w (path_candidates w)).
Proof. unfold locate_events. now rewrite findV4l2Ctl_eq. Qed.

(** What follows [popen] in [runCommandAndPrint] when a child was started. *)
Definition no_output_marker : string := "(no output)" ++ nl.

Definition section_events (child : Child) : Trace :=
  (fst (fgets_loop (child_stdout child) false)
   ++ (if nonempty (child_stdout child) then [] else [Cout no_output_marker])
   ++ EPclose
   :: (if Z.eqb (pclose_ret child) (-1)
       then [Cerr ("Error closing command stream: "
                   ++ pclose_strerror child ++ nl)]
       else []))%list.

Definition spawn_failure_line (cmd : string) : string :=
  "Failed to run command: " ++ cmd ++ nl.

Lemma runCommandAndPrint_eq w cmd n :
  runCommandAndPrint w cmd n =
    match popen w n cmd with
    | None => ((-1)%Z, [EPopen cmd; Cerr (spawn_failure_line cmd)], S n)
    | Some child =>
        (if Z.eqb (pclose_ret child) (-1) then (-1)%Z else 0%Z,
         EPopen cmd :: section_events child,
         S n)
    end.
Proof.
  unfold runCommandAndPrint, bind, sys_popen. simpl.
  destruct (popen w n cmd) as [child|]; [|reflexivity].
  unfold section_events.
  pose proof (fgets_loop_printedAny (child_stdout child) false) as Hany.
  destruct (fgets_loop (child_stdout child) false) as [written printedAny].
  simpl in Hany. subst printedAny.
  unfold bind, tells, tell, ret. simpl.
  destruct (nonempty (child_stdout child)); simpl;
    destruct (Z.eqb (pclose_ret child) (-1)); simpl;
    rewrite ?app_nil_r; reflexivity.
Qed.

Definition banner (device : string) : Trace :=
  [ Cout (rule ++ nl); Cout ("DEVICE: " ++ device ++ nl);
    Cout (rule ++ nl ++ nl) ].

(** The events of [inspectDevice] when [n] children were started before. *)
Definition device_events (w : World) (v4l2CtlPath device : string) (n : nat)
  : Trace :=
  (banner device
   ++ Cout label_all
   :: trace (runCommandAndPrint w (cmd_all v4l2CtlPath device) n)
   ++ Cout nl :: Cout label_formats
   :: trace (runCommandAndPrint w (cmd_formats v4l2CtlPath device) (S n))
   ++ [Cout nl])%list.

Lemma runCommandAndPrint_spawned w cmd n :
  spawned (runCommandAndPrint w cmd n) = S n.
Proof.
  rewrite runCommandAndPrint_eq. destruct (popen w n cmd); reflexivity.
Qed.

Lemma inspectDevice_eq w v4l2CtlPath device n :
  inspectDevice w v4l2CtlPath device n =
    (tt, device_events w v4l2CtlPath device n, S (S n)).
Proof.
  unfold inspectDevice, device_events, banner, bind, tell. simpl.
  pose proof (runCommandAndPrint_spawned w (cmd_all v4l2CtlPath device) n) as H1.
  destruct (runCommandAndPrint w (cmd_all v4l2CtlPath device) n)
    as [[r1 t1] n1]. unfold spawned in H1. simpl in H1. subst n1.
  pose proof (runCommandAndPrint_spawned w (cmd_formats v4l2CtlPath device) (S n))
    as H2.
  destruct (runCommandAndPrint w (cmd_formats v4l2CtlPath device) (S n))
    as [[r2 t2] n2]. unfold spawned in H2. simpl in H2. subst n2.
  unfold trace. simpl. reflexivity.
Qed.

Fixpoint report_events (w : World) (v4l2CtlPath : string)
  (devices : list string) (n : nat) : Trace :=
  match devices with
  | [] => []
  | dev :: more =>
      (device_events w v4l2CtlPath dev n
       ++ report_events w v4l2CtlPath more (S (S n)))%list
  end.

Lemma inspect_all_eq w v4l2CtlPath devices n :
  inspect_all w v4l2CtlPath devices n =
    (tt, report_events w v4l2CtlPath devices n, 2 * List.length devices + n).
Proof.
  revert n. induction devices as [|dev more IH]; intros n; simpl.
  - reflexivity.
  - unfold bind. rewrite inspectDevice_eq, IH. do 2 f_equal. lia.
Qed.

Definition listing_line (path : string) : string := "  - " ++ path ++ nl.

Fixpoint scan_events (w : World) (pathv : list string) : Trace :=
  match pathv with
  | [] => []
  | path :: more =>
      EStat path
      :: (if is_char_device w path then [Cout (listing_line path)] else [])
      ++ scan_events w more
  end%list.

Lemma scan_paths_eq w pathv n :
  scan_paths w pathv n =
    (filter (is_char_device w) pathv, scan_events w pathv, n).
Proof.
  induction pathv as [|path more IH]; simpl; [reflexivity|].
  unfold bind. rewrite isCharDevice_eq.
  destruct (is_char_device w path); simpl.
  - unfold bind, tell, ret. rewrite IH. simpl. rewrite app_nil_r. reflexivity.
  - rewrite IH. reflexivity.
Qed.

Definition video_pattern : string := "/dev/video*".

(** Whether the [glob] call of [main] matched something. *)
Definition glob_matched (w : World) : bool :=
  Z.eqb (glob_ret (glob w video_pattern)) 0
  && negb (Nat.eqb (List.length (gl_pathv (glob w video_pattern))) 0).

(** The vector [devices] that [main] builds: empty when [glob] fails or
    matches nothing, otherwise the matches that are character devices,
    in the order [glob] lists them. *)
Definition device_set (w : World) : list string :=
  if glob_matched w
  then result (scan_paths w (gl_pathv (glob w video_pattern)) 0)
  else [].

Lemma device_set_eq w :
  device_set w =
    if glob_matched w
    then filter (is_char_device w) (gl_pathv (glob w video_pattern))
    else [].
Proof. unfold device_set. now rewrite scan_paths_eq. Qed.

Definition intro_events : Trace := map Cout intro_text.

Definition discovery_events (w : World) : Trace :=
  (EGlob video_pattern
   :: Cout ("Discovered video devices:" ++ nl)
   :: scan_events w (gl_pathv (glob w video_pattern))
   ++ [Cout nl])%list.

(** The whole run, case by case. *)
Lemma run_eq w :
  run w =
    match located w with
    | None => (1%Z, locate_events w ++ [Cerr not_found_diag], 0)
    | Some v4l2CtlPath =>
        if glob_matched w then
          match device_set w with
          | [] =>
              (0%Z,
               locate_events w ++ intro_events ++ discovery_events w
               ++ [Cout no_char_device_msg; EGlobfree],
               0)
          | _ :: _ =>
              (0%Z,
               locate_events w ++ intro_events ++ discovery_events w
               ++ report_events w v4l2CtlPath (device_set w) 0 ++ [EGlobfree],
               2 * List.length (device_set w))
          end
        else
          (0%Z,
           locate_events w ++ intro_events
           ++ [EGlob video_pattern; Cout no_glob_match_msg; EGlobfree],
           0)
    end%list.
Proof.
  rewrite device_set_eq.
  unfold run, main, located, locate_events, result, trace, bind.
  destruct (findV4l2Ctl w 0) as [[found t0] n0] eqn:Efind.
  pose proof (findV4l2Ctl_eq w 0) as Hfind. rewrite Efind in Hfind.
  injection Hfind as _ _ ->. cbn [fst snd].
  destruct found as [v4l2CtlPath|]; [|reflexivity].
  unfold tells, sys_glob, bind, tell, ret.
  unfold glob_matched, discovery_events, video_pattern.
  fold intro_events.
  set (g := glob w "/dev/video*").
  destruct (Z.eqb (glob_ret g) 0); cbn [negb orb andb]; [|reflexivity].
  destruct (Nat.eqb (List.length (gl_pathv g)) 0); cbn [negb orb andb];
    [reflexivity|].
  rewrite scan_paths_eq.
  destruct (filter (is_char_device w) (gl_pathv g)) as [|dev more] eqn:Edev.
  - cbn [app]. rewrite <- ?app_assoc. reflexivity.
  - rewrite inspect_all_eq. cbn [app]. rewrite ?app_nil_r, <- ?app_assoc.
    cbn [app]. rewrite Nat.add_0_r. reflexivity.
Qed.

(** ** Strings *)

Lemma append_assoc (a b c : string) : (a ++ b) ++ c = a ++ b ++ c.
Proof. induction a as [|x a IH]; simpl; [reflexivity | now rewrite IH]. Qed.

Lemma append_nil_r (a : string) : a ++ "" = a.
Proof. induction a as [|x a IH]; simpl; [reflexivity | now rewrite IH]. Qed.

Lemma append_length (a b : string) :
  String.length (a ++ b) = String.length a + String.length b.
Proof. induction a as [|x a IH]; simpl; [reflexivity | now rewrite IH]. Qed.

Lemma append_cancel_l (a x y : string) : a ++ x = a ++ y -> x = y.
Proof.
  induction a as [|c a IH]; simpl; [trivial|].
  intros [= H]. now apply IH.
Qed.

Lemma append_cancel_r (x y b : string) : x ++ b = y ++ b -> x = y.
Proof.
  revert y. induction x as [|c x IH]; intros [|d y] H; simpl in H.
  - reflexivity.
  - apply (f_equal String.length) in H. simpl in H.
    rewrite append_length in H. lia.
  - apply (f_equal String.length) in H. simpl in H.
    rewrite append_length in H. lia.
  - injection H as -> H. f_equal. now apply IH.
Qed.

Fixpoint starts_with (pattern s : string) : bool :=
  match pattern with
  | "" => true
  | String a pattern' =>
      match s with
      | "" => false
      | String b s' => Ascii.eqb a b && starts_with pattern' s'
      end
  end.

(** [occurs pattern s]: [pattern] is a substring of [s]. *)
Fixpoint occurs (pattern s : string) : bool :=
  starts_with pattern s
  || match s with
     | "" => false
     | String _ s' => occurs pattern s'
     end.

Lemma split_path_not_nil paths : split_path paths <> [].
Proof.
  destruct paths as [|c rest]; cbn [split_path]; [discriminate|].
  destruct (Ascii.eqb c ":"); [discriminate|].
  destruct (split_path rest); discriminate.
Qed.

(** Joining the components with colons gives the list back. *)
Lemma split_path_concat paths : String.concat ":" (split_path paths) = paths.
Proof.
  induction paths as [|c rest IH]; [reflexivity|].
  cbn [split_path].
  pose proof (split_path_not_nil rest) as Hne.
  destruct (split_path rest) as [|first others] eqn:E; [congruence|].
  destruct (Ascii.eqb_spec c ":") as [->|Hc].
  - change (String.concat ":" ("" :: first :: others))
      with ("" ++ ":" ++ String.concat ":" (first :: others)).
    rewrite IH. reflexivity.
  - destruct others as [|second others].
    + simpl in IH. subst first. reflexivity.
    + change (String.concat ":" (String c first :: second :: others))
        with (String c (first ++ ":" ++ String.concat ":" (second :: others))).
      f_equal. exact IH.
Qed.

(** ** Projections of a trace *)

Definition is_stdout (e : Event) : bool :=
  match e with Cout _ | Fwd _ => true | _ => false end.

Definition is_stderr (e : Event) : bool :=
  match e with Cerr _ => true | _ => false end.

Definition is_scan (e : Event) : bool :=
  match e with EGlob _ | EStat _ => true | _ => false end.

Definition is_popen (e : Event) : bool :=
  match e with EPopen _ => true | _ => false end.

Definition is_getenv (e : Event) : bool :=
  match e with EGetenv _ => true | _ => false end.

Definition is_locate (e : Event) : bool :=
  match e with EGetenv _ | EAccess _ => true | _ => false end.

Lemma stdout_of_app t1 t2 :
  stdout_of (t1 ++ t2)%list = stdout_of t1 ++ stdout_of t2.
Proof.
  induction t1 as [|e t1 IH]; [reflexivity|].
  destruct e; cbn [app stdout_of]; rewrite IH; try reflexivity;
    now rewrite append_assoc.
Qed.

Lemma stderr_of_app t1 t2 :
  stderr_of (t1 ++ t2)%list = stderr_of t1 ++ stderr_of t2.
Proof.
  induction t1 as [|e t1 IH]; [reflexivity|].
  destruct e; cbn [app stderr_of]; rewrite IH; try reflexivity;
    now rewrite append_assoc.
Qed.

Lemma popen_cmds_app t1 t2 :
  popen_cmds (t1 ++ t2)%list = (popen_cmds t1 ++ popen_cmds t2)%list.
Proof.
  induction t1 as [|e t1 IH]; [reflexivity|].
  destruct e; cbn [app popen_cmds]; rewrite IH; reflexivity.
Qed.

Lemma stdout_of_silent t :
  existsb is_stdout t = false -> stdout_of t = "".
Proof.
  induction t as [|e t IH]; [reflexivity|].
  destruct e; cbn [existsb is_stdout orb stdout_of]; auto; discriminate.
Qed.

Lemma stderr_of_silent t :
  existsb is_stderr t = false -> stderr_of t = "".
Proof.
  induction t as [|e t IH]; [reflexivity|].
  destruct e; cbn [existsb is_stderr orb stderr_of]; auto; discriminate.
Qed.

Lemma popen_cmds_silent t :
  existsb is_popen t = false -> popen_cmds t = [].
Proof.
  induction t as [|e t IH]; [reflexivity|].
  destruct e; cbn [existsb is_popen orb popen_cmds]; auto; discriminate.
Qed.

Lemma all_fwd_existsb (p : Event -> bool) t :
  (forall line, p (Fwd line) = false) ->
  forallb is_fwd t = true -> existsb p t = false.
Proof.
  intros Hp. induction t as [|e t IH]; [reflexivity|].
  destruct e; cbn [forallb is_fwd andb]; try discriminate.
  intros H. cbn [existsb]. rewrite Hp, (IH H). reflexivity.
Qed.

(** The locator only calls [getenv] and [access]. *)
Lemma locate_events_only w : forallb is_locate (locate_events w) = true.
Proof.
  rewrite locate_events_eq. cbn [forallb is_locate andb].
  induction (probed w (path_candidates w)) as [|c l IH]; [reflexivity|].
  exact IH.
Qed.

Lemma only_locate_existsb (p : Event -> bool) t :
  (forall name, p (EGetenv name) = false) ->
  (forall path, p (EAccess path) = false) ->
  forallb is_locate t = true -> existsb p t = false.
Proof.
  intros Hg Ha. induction t as [|e t IH]; [reflexivity|].
  destruct e; cbn [forallb is_locate andb]; try discriminate;
    intros H; cbn [existsb]; rewrite ?Hg, ?Ha, (IH H); reflexivity.
Qed.

Create Rewrite HintDb trace_proj.
#[local] Hint Rewrite stdout_of_app stderr_of_app popen_cmds_app
  existsb_app filter_app : trace_proj.

(** ** The model on small inputs *)

Example getline_leading_colon : getline ":a" ":" = Some ("", "a").
Proof. reflexivity. Qed.

Example getline_trailing_colon : getline "a:" ":" = Some ("a", "").
Proof. reflexivity. Qed.

Example search_path_entries_skip_empty :
  search_path_entries "/usr/local/bin::/usr/bin:" = ["/usr/local/bin"; "/usr/bin"].
Proof. reflexivity. Qed.

Example fgets_stops_after_newline :
  fgets sizeof_line ("ab" ++ nl ++ "cd") = Some ("ab" ++ nl, "cd").
Proof. vm_compute. reflexivity. Qed.

Example fgets_fills_buffer : fgets 3 "abcdef" = Some ("ab", "cdef").
Proof. reflexivity. Qed.

Example fgets_loop_two_lines :
  fgets_loop ("ab" ++ nl ++ "cd") false = ([Fwd ("ab" ++ nl); Fwd "cd"], true).
Proof. vm_compute. reflexivity. Qed.

Example character_device_mode :
  S_ISCHR mode_chr = true /\ S_ISCHR mode_reg = false.
Proof. split; reflexivity. Qed.

Example exit_status_one : exit_status 1 = 256%Z.
Proof. reflexivity. Qed.

Example two_nodes_device_set : device_set Samples.two_nodes = ["/dev/video0"].
Proof. reflexivity. Qed.

Example two_nodes_commands :
  popen_cmds (trace (run Samples.two_nodes)) =
    [ cmd_all "/usr/bin/v4l2-ctl" "/dev/video0";
      cmd_formats "/usr/bin/v4l2-ctl" "/dev/video0" ].
Proof. vm_compute. reflexivity. Qed.

Example two_nodes_second_section :
  stdout_of (trace (runCommandAndPrint Samples.two_nodes
                      (cmd_formats "/usr/bin/v4l2-ctl" "/dev/video0") 1)) =
    "(no output)" ++ nl.
Proof. vm_compute. reflexivity. Qed.

Example bare_exit_code : exit_code Samples.bare = 0%Z.
Proof. vm_compute. reflexivity. Qed.

Example no_backend_exit_code : exit_code Samples.no_backend = 1%Z.
Proof. vm_compute. reflexivity. Qed.

(** ** The backend locator *)

Section Locator.

Variable w : World.

Lemma find_map_first (entries : list string) (c : string) :
  find (executable w) (map candidate_of entries) = Some c <->
  exists before entry after,
    entries = (before ++ entry :: after)%list /\
    c = candidate_of entry /\
    executable w c = true /\
    (forall e, In e before -> executable w (candidate_of e) = false).
Proof.
  induction entries as [|e entries IH]; cbn [map find].
  - split; [discriminate|].
    intros (before & entry & after & H & _). now destruct before.
  - destruct (executable w (candidate_of e)) eqn:Ex.
    + split.
      * intros [= <-]. exists [], e, entries. repeat split; auto.
        intros e0 [].
      * intros (before & entry & after & H & -> & Hx & Hbefore).
        destruct before as [|b before]; cbn [app] in H; injection H as -> ->.
        -- reflexivity.
        -- rewrite (Hbefore b (or_introl eq_refl)) in Ex. discriminate.
    + rewrite IH. split.
      * intros (before & entry & after & -> & -> & Hx & Hbefore).
        exists (e :: before), entry, after. repeat split; auto.
        intros e0 [<-|Hin]; auto.
      * intros (before & entry & after & H & -> & Hx & Hbefore).
        destruct before as [|b before]; cbn [app] in H; injection H as -> ->.
        -- rewrite Hx in Ex. discriminate.
        -- exists before, entry, after. repeat split; auto.
           intros e0 Hin. apply Hbefore. now right.
Qed.

Lemma find_none_iff {A} (f : A -> bool) (l : list A) :
  find f l = None <-> forall x, In x l -> f x = false.
Proof.
  split; [apply find_none|].
  induction l as [|a l IH]; cbn [find]; [reflexivity|].
  intros H. rewrite (H a (or_introl eq_refl)).
  apply IH. intros x Hx. apply H. now right.
Qed.

(** C7, as the code has it: the locator answers with the candidate of
    the first non-empty component of [PATH], in search-path order, for
    whose candidate [access(.., X_OK)] returns 0; it answers not-found
    exactly when no such component exists, which is the case when [PATH]
    is unset or empty.  The loop passes over an empty token, and
    [access] is the only test made: it does not tell a file from a
    directory that may be searched. *)
Theorem findV4l2Ctl_first_match (n : nat) :
  (forall c,
      result (findV4l2Ctl w n) = Some c <->
      exists paths before entry after,
        getenv w "PATH" = Some paths /\
        search_path_entries paths = (before ++ entry :: after)%list /\
        c = candidate_of entry /\
        executable w c = true /\
        (forall e, In e before -> executable w (candidate_of e) = false))
  /\ (result (findV4l2Ctl w n) = None <->
      forall c, In c (path_candidates w) -> executable w c = false)
  /\ (getenv w "PATH" = None \/ getenv w "PATH" = Some "" ->
      result (findV4l2Ctl w n) = None).
Proof.
  rewrite findV4l2Ctl_eq. unfold result. cbn [fst].
  split; [|split].
  - intros c. unfold path_candidates.
    destruct (getenv w "PATH") as [paths|].
    + rewrite find_map_first. split.
      * intros (before & entry & after & H). now exists paths, before, entry, after.
      * intros (paths' & before & entry & after & [= <-] & H).
        now exists before, entry, after.
    + split; [discriminate|]. intros (paths & _ & _ & _ & H & _). discriminate.
  - apply find_none_iff.
  - unfold path_candidates. intros [-> | ->]; reflexivity.
Qed.

End Locator.

(** ** The run as a whole *)

(** The two command lines of each device, in the order of the devices. *)
Definition planned_cmds (v4l2CtlPath : string) (devices : list string)
  : list string :=
  flat_map (fun d => [cmd_all v4l2CtlPath d; cmd_formats v4l2CtlPath d]) devices.

Lemma planned_cmds_length v4l2CtlPath devices :
  List.length (planned_cmds v4l2CtlPath devices) = 2 * List.length devices.
Proof.
  induction devices as [|dev more IH]; [reflexivity|].
  cbn [planned_cmds flat_map app List.length].
  unfold planned_cmds in IH. rewrite IH. lia.
Qed.

Definition intro_banner : string := String.concat "" intro_text.

Lemma stdout_of_intro : stdout_of intro_events = intro_banner.
Proof. reflexivity. Qed.

Ltac split_trace :=
  repeat progress
    (autorewrite with trace_proj;
     cbn [existsb orb app stdout_of stderr_of popen_cmds]).

Section Run.

Variable w : World.

Lemma scan_events_quiet (p : Event -> bool) pathv :
  (forall path, p (EStat path) = false) ->
  (forall text, p (Cout text) = false) ->
  existsb p (scan_events w pathv) = false.
Proof.
  intros Hs Hc. induction pathv as [|path more IH]; [reflexivity|].
  cbn [scan_events]. split_trace. rewrite Hs, IH.
  destruct (is_char_device w path); cbn [existsb orb]; rewrite ?Hc; reflexivity.
Qed.

Lemma scan_events_no_device pathv :
  filter (is_char_device w) pathv = [] ->
  scan_events w pathv = map EStat pathv.
Proof.
  induction pathv as [|path more IH]; [reflexivity|].
  cbn [filter scan_events map].
  destruct (is_char_device w path); [discriminate|].
  intros H. cbn [app]. now rewrite IH.
Qed.

Lemma stdout_of_stats pathv : stdout_of (map EStat pathv) = "".
Proof. induction pathv; [reflexivity | exact IHpathv]. Qed.

Lemma stderr_of_stats pathv : stderr_of (map EStat pathv) = "".
Proof. induction pathv; [reflexivity | exact IHpathv]. Qed.

Lemma popen_cmds_stats pathv : popen_cmds (map EStat pathv) = [].
Proof. induction pathv; [reflexivity | exact IHpathv]. Qed.

Lemma section_events_quiet (p : Event -> bool) child :
  (forall line, p (Fwd line) = false) ->
  p (Cout no_output_marker) = false ->
  (forall text, p (Cerr text) = false) ->
  p EPclose = false ->
  existsb p (section_events child) = false.
Proof.
  intros Hf Hc He Hp. unfold section_events. split_trace.
  rewrite (all_fwd_existsb p _ Hf (fgets_loop_all_fwd _ _)), Hp.
  destruct (nonempty (child_stdout child)), (Z.eqb (pclose_ret child) (-1));
    cbn [existsb orb]; rewrite ?Hc, ?He; reflexivity.
Qed.

Lemma runCommandAndPrint_quiet (p : Event -> bool) cmd n :
  (forall c, p (EPopen c) = false) ->
  (forall line, p (Fwd line) = false) ->
  p (Cout no_output_marker) = false ->
  (forall text, p (Cerr text) = false) ->
  p EPclose = false ->
  existsb p (trace (runCommandAndPrint w cmd n)) = false.
Proof.
  intros Ho Hf Hc He Hp. rewrite runCommandAndPrint_eq.
  destruct (popen w n cmd) as [child|]; unfold trace; cbn [fst snd existsb].
  - now rewrite Ho, section_events_quiet.
  - now rewrite Ho, He.
Qed.

(** A predicate that holds of none of the texts [inspectDevice] writes
    itself. *)
Definition blind_to_report (p : Event -> bool) : Prop :=
  p (Cout (rule ++ nl)) = false
  /\ (forall device, p (Cout ("DEVICE: " ++ device ++ nl)) = false)
  /\ p (Cout (rule ++ nl ++ nl)) = false
  /\ p (Cout label_all) = false
  /\ p (Cout label_formats) = false
  /\ p (Cout nl) = false
  /\ p (Cout no_output_marker) = false.

Lemma blind_to_cout (p : Event -> bool) :
  (forall text, p (Cout text) = false) -> blind_to_report p.
Proof. intros H. repeat split; intros; apply H. Qed.

Lemma report_events_quiet (p : Event -> bool) v4l2CtlPath devices n :
  (forall c, p (EPopen c) = false) ->
  (forall line, p (Fwd line) = false) ->
  blind_to_report p ->
  (forall text, p (Cerr text) = false) ->
  p EPclose = false ->
  existsb p (report_events w v4l2CtlPath devices n) = false.
Proof.
  intros Ho Hf (Hr & Hd & Hrb & Hla & Hlf & Hnl & Hno) He Hp. revert n.
  induction devices as [|dev more IH]; intros n; [reflexivity|].
  cbn [report_events]. unfold device_events, banner. split_trace.
  rewrite !runCommandAndPrint_quiet, IH, Hr, Hd, Hrb, Hla, Hlf, Hnl by auto.
  reflexivity.
Qed.

Lemma popen_cmds_runCommandAndPrint cmd n :
  popen_cmds (trace (runCommandAndPrint w cmd n)) = [cmd].
Proof.
  rewrite runCommandAndPrint_eq.
  destruct (popen w n cmd) as [child|]; unfold trace; cbn [fst snd popen_cmds];
    [|reflexivity].
  f_equal. apply popen_cmds_silent.
  now apply section_events_quiet.
Qed.

Lemma popen_cmds_device v4l2CtlPath device n :
  popen_cmds (device_events w v4l2CtlPath device n) =
    [cmd_all v4l2CtlPath device; cmd_formats v4l2CtlPath device].
Proof.
  unfold device_events, banner. cbn [app popen_cmds]. split_trace.
  cbn [popen_cmds]. split_trace.
  now rewrite !popen_cmds_runCommandAndPrint.
Qed.

Lemma popen_cmds_report v4l2CtlPath devices n :
  popen_cmds (report_events w v4l2CtlPath devices n) =
    planned_cmds v4l2CtlPath devices.
Proof.
  revert n. induction devices as [|dev more IH]; intros n; [reflexivity|].
  cbn [report_events planned_cmds flat_map]. split_trace.
  now rewrite popen_cmds_device, IH.
Qed.

Lemma popen_cmds_before_report :
  popen_cmds (locate_events w ++ intro_events ++ discovery_events w)%list = [].
Proof.
  apply popen_cmds_silent. split_trace.
  rewrite (only_locate_existsb is_popen _ (fun _ => eq_refl) (fun _ => eq_refl)
             (locate_events_only w)).
  unfold discovery_events. cbn [existsb is_popen orb]. split_trace.
  now rewrite scan_events_quiet.
Qed.

(** Whenever the backend was located the program exits with status 0. *)
Lemma exit_code_located v4l2CtlPath :
  located w = Some v4l2CtlPath -> exit_code w = 0%Z.
Proof.
  intros H. unfold exit_code. rewrite run_eq, H.
  destruct (glob_matched w); [|reflexivity].
  destruct (device_set w); reflexivity.
Qed.

(** C1: when the locator finds no backend the run prints the diagnostic,
    which names [v4l2-ctl] and the package to install, on standard error
    and exits with status 1; the device namespace is never scanned (no
    [glob], no [stat]), nothing reaches standard output and no backend is
    started. *)
Theorem missing_backend_is_fatal :
  located w = None ->
  exit_code w = 1%Z
  /\ stderr_of (trace (run w)) = not_found_diag
  /\ occurs "`v4l2-ctl` not found" not_found_diag = true
  /\ occurs "apt-get install v4l-utils" not_found_diag = true
  /\ existsb is_scan (trace (run w)) = false
  /\ existsb is_stdout (trace (run w)) = false
  /\ existsb is_popen (trace (run w)) = false.
Proof.
  intros H. unfold exit_code. rewrite run_eq, H.
  unfold result, trace. cbn [fst snd].
  pose proof (locate_events_only w) as Hloc.
  repeat split; try reflexivity.
  - split_trace. rewrite stderr_of_silent; [reflexivity|].
    now apply only_locate_existsb.
  - split_trace. now rewrite only_locate_existsb.
  - split_trace. now rewrite only_locate_existsb.
  - split_trace. now rewrite only_locate_existsb.
Qed.

(** C4: with the backend located and an empty device set the run exits
    with status 0; after the introduction, standard output carries the
    no-match message when [glob] found nothing and the empty listing
    followed by the no-character-device message otherwise; nothing is
    written to standard error and no backend is started. *)
Theorem no_device_is_not_an_error (v4l2CtlPath : string) :
  located w = Some v4l2CtlPath ->
  device_set w = [] ->
  exit_code w = 0%Z
  /\ stdout_of (trace (run w)) =
       intro_banner
       ++ (if glob_matched w
           then "Discovered video devices:" ++ nl ++ nl ++ no_char_device_msg
           else no_glob_match_msg)
  /\ stderr_of (trace (run w)) = ""
  /\ popen_cmds (trace (run w)) = [].
Proof.
  intros Hloc Hdev.
  split; [now apply (exit_code_located v4l2CtlPath)|].
  pose proof (locate_events_only w) as Honly.
  assert (Hout : stdout_of (locate_events w) = "")
    by (apply stdout_of_silent; now apply only_locate_existsb).
  assert (Herr : stderr_of (locate_events w) = "")
    by (apply stderr_of_silent; now apply only_locate_existsb).
  assert (Hcmd : popen_cmds (locate_events w) = [])
    by (apply popen_cmds_silent; now apply only_locate_existsb).
  rewrite run_eq, Hloc, Hdev. unfold trace.
  destruct (glob_matched w) eqn:Hglob; cbn [fst snd].
  - rewrite device_set_eq, Hglob in Hdev.
    unfold discovery_events. rewrite (scan_events_no_device _ Hdev).
    split_trace.
    rewrite Hout, Herr, Hcmd, stdout_of_intro, stdout_of_stats,
      stderr_of_stats, popen_cmds_stats.
    repeat split.
  - split_trace. rewrite Hout, Herr, Hcmd, stdout_of_intro.
    repeat split.
Qed.

(** *** The report *)

Definition banner_line (device : string) : string := "DEVICE: " ++ device ++ nl.

(** The events that delimit the report: the lines of a banner, the two
    section labels and the start of a backend. *)
Definition is_marker (e : Event) : bool :=
  match e with
  | EPopen _ => true
  | Cout text =>
      String.eqb text (rule ++ nl) || String.eqb text (rule ++ nl ++ nl)
      || starts_with "DEVICE: " text
      || String.eqb text label_all || String.eqb text label_formats
  | _ => false
  end.

Definition device_markers (v4l2CtlPath device : string) : Trace :=
  (banner device
   ++ [ Cout label_all; EPopen (cmd_all v4l2CtlPath device);
        Cout label_formats; EPopen (cmd_formats v4l2CtlPath device) ])%list.

(** The texts written by the program that start with [pattern]. *)
Fixpoint lines_with (pattern : string) (t : Trace) : list string :=
  match t with
  | [] => []
  | Cout text :: t' =>
      if starts_with pattern text then text :: lines_with pattern t'
      else lines_with pattern t'
  | _ :: t' => lines_with pattern t'
  end.

Definition is_line_with (pattern : string) (e : Event) : bool :=
  match e with
  | Cout text => starts_with pattern text
  | _ => false
  end.

(** The banner lines and the lines of the device listing. *)
Definition banner_lines : Trace -> list string := lines_with "DEVICE: ".
Definition listing_lines : Trace -> list string := lines_with "  - ".

Lemma lines_with_app pattern t1 t2 :
  lines_with pattern (t1 ++ t2)%list =
    (lines_with pattern t1 ++ lines_with pattern t2)%list.
Proof.
  induction t1 as [|e t1 IH]; [reflexivity|].
  destruct e; cbn [app lines_with]; try exact IH.
  destruct (starts_with pattern text); cbn [app]; now rewrite IH.
Qed.

Lemma lines_with_quiet pattern t :
  existsb (is_line_with pattern) t = false -> lines_with pattern t = [].
Proof.
  induction t as [|e t IH]; [reflexivity|].
  destruct e; cbn [existsb is_line_with lines_with orb]; try exact IH.
  destruct (starts_with pattern text); [discriminate | exact IH].
Qed.

Lemma In_lines_with pattern t text :
  In (Cout text) t -> starts_with pattern text = true ->
  In text (lines_with pattern t).
Proof.
  intros Hin Hstart. induction t as [|e t IH]; [contradiction|].
  destruct Hin as [->|Hin].
  - cbn [lines_with]. rewrite Hstart. now left.
  - specialize (IH Hin).
    destruct e; cbn [lines_with]; try exact IH.
    destruct (starts_with pattern text0); [now right | exact IH].
Qed.

Lemma filter_none {A} (p : A -> bool) (l : list A) :
  existsb p l = false -> filter p l = [].
Proof.
  induction l as [|a l IH]; [reflexivity|].
  cbn [existsb filter]. destruct (p a); [discriminate|]. exact IH.
Qed.

Lemma banner_lines_markers t :
  banner_lines (filter is_marker t) = banner_lines t.
Proof.
  induction t as [|e t IH]; [reflexivity|].
  unfold banner_lines in *.
  destruct e; cbn [filter is_marker lines_with]; try exact IH.
  destruct (starts_with "DEVICE: " text) eqn:Eb.
  - rewrite orb_true_r. cbn [orb lines_with]. rewrite Eb. now f_equal.
  - destruct (_ || _ || _ || _ || _); cbn [lines_with]; rewrite ?Eb; exact IH.
Qed.

Lemma banner_lines_device_markers v4l2CtlPath devices :
  banner_lines (flat_map (device_markers v4l2CtlPath) devices) =
    map banner_line devices.
Proof.
  induction devices as [|dev more IH]; [reflexivity|].
  cbn [flat_map map]. unfold device_markers at 1, banner.
  unfold banner_lines in *. rewrite lines_with_app, IH. reflexivity.
Qed.

Lemma markers_runCommandAndPrint cmd n :
  filter is_marker (trace (runCommandAndPrint w cmd n)) = [EPopen cmd].
Proof.
  rewrite runCommandAndPrint_eq.
  destruct (popen w n cmd) as [child|]; unfold trace; cbn [fst snd];
    [|reflexivity].
  cbn [filter is_marker]. f_equal. apply filter_none.
  apply section_events_quiet; reflexivity.
Qed.

Lemma marker_rule : is_marker (Cout (rule ++ nl)) = true.
Proof. reflexivity. Qed.

Lemma marker_rule_blank : is_marker (Cout (rule ++ nl ++ nl)) = true.
Proof. reflexivity. Qed.

Lemma marker_banner_line device :
  is_marker (Cout ("DEVICE: " ++ device ++ nl)) = true.
Proof. reflexivity. Qed.

Lemma marker_label_all : is_marker (Cout label_all) = true.
Proof. reflexivity. Qed.

Lemma marker_label_formats : is_marker (Cout label_formats) = true.
Proof. reflexivity. Qed.

Lemma marker_nl : is_marker (Cout nl) = false.
Proof. reflexivity. Qed.

Lemma markers_device v4l2CtlPath device n :
  filter is_marker (device_events w v4l2CtlPath device n) =
    device_markers v4l2CtlPath device.
Proof.
  unfold device_events, device_markers, banner.
  repeat progress
    (rewrite ?filter_app; cbn [filter app];
     rewrite ?marker_rule, ?marker_rule_blank, ?marker_banner_line,
       ?marker_label_all, ?marker_label_formats, ?marker_nl,
       ?markers_runCommandAndPrint).
  reflexivity.
Qed.

Lemma markers_report v4l2CtlPath devices n :
  filter is_marker (report_events w v4l2CtlPath devices n) =
    flat_map (device_markers v4l2CtlPath) devices.
Proof.
  revert n. induction devices as [|dev more IH]; intros n; [reflexivity|].
  cbn [report_events flat_map]. now rewrite filter_app, markers_device, IH.
Qed.

Lemma markers_before_report :
  filter is_marker (locate_events w ++ intro_events ++ discovery_events w) = [].
Proof.
  apply filter_none. split_trace.
  rewrite (only_locate_existsb is_marker _ (fun _ => eq_refl) (fun _ => eq_refl)
             (locate_events_only w)).
  unfold discovery_events. split_trace.
  assert (Hscan : existsb is_marker
                    (scan_events w (gl_pathv (glob w video_pattern))) = false).
  { induction (gl_pathv (glob w video_pattern)) as [|path more IH];
      [reflexivity|].
    cbn [scan_events]. split_trace. rewrite IH.
    destruct (is_char_device w path); reflexivity. }
  rewrite Hscan. reflexivity.
Qed.

(** The backends started in a run are those planned for the device set. *)
Lemma popen_cmds_run v4l2CtlPath :
  located w = Some v4l2CtlPath ->
  popen_cmds (trace (run w)) = planned_cmds v4l2CtlPath (device_set w).
Proof.
  intros Hloc. rewrite run_eq, Hloc.
  pose proof popen_cmds_before_report as Hpre.
  destruct (glob_matched w) eqn:Hglob.
  - destruct (device_set w) as [|dev more] eqn:Hdev; unfold trace; cbn [fst snd].
    + rewrite !app_assoc, popen_cmds_app, <- !app_assoc, Hpre. reflexivity.
    + rewrite !app_assoc. do 2 rewrite popen_cmds_app.
      rewrite <- !app_assoc, Hpre.
      rewrite popen_cmds_report. cbn [popen_cmds app]. apply app_nil_r.
  - rewrite device_set_eq, Hglob. unfold trace; cbn [fst snd]. split_trace.
    rewrite popen_cmds_silent; [reflexivity|].
    now apply only_locate_existsb; [| |apply locate_events_only].
Qed.

Lemma markers_run v4l2CtlPath :
  located w = Some v4l2CtlPath ->
  filter is_marker (trace (run w)) =
    flat_map (device_markers v4l2CtlPath) (device_set w).
Proof.
  intros Hloc. rewrite run_eq, Hloc.
  pose proof markers_before_report as Hpre.
  destruct (glob_matched w) eqn:Hglob.
  - destruct (device_set w) as [|dev more] eqn:Hdev;
      unfold trace; cbn [fst snd].
    + rewrite !app_assoc, filter_app, <- !app_assoc, Hpre. reflexivity.
    + rewrite !app_assoc. do 2 rewrite filter_app.
      rewrite <- !app_assoc, Hpre.
      rewrite markers_report. cbn [filter is_marker app]. apply app_nil_r.
  - rewrite device_set_eq, Hglob. unfold trace; cbn [fst snd].
    rewrite !filter_app.
    rewrite (filter_none is_marker (locate_events w)); [reflexivity|].
    now apply only_locate_existsb; [| |apply locate_events_only].
Qed.

Lemma banner_lines_run v4l2CtlPath :
  located w = Some v4l2CtlPath ->
  banner_lines (trace (run w)) = map banner_line (device_set w).
Proof.
  intros Hloc.
  now rewrite <- banner_lines_markers, (markers_run _ Hloc),
    banner_lines_device_markers.
Qed.

(** *** Failures of [popen] *)

Lemma runCommandAndPrint_spawn_failure cmd n :
  popen w n cmd = None ->
  trace (runCommandAndPrint w cmd n) =
    [EPopen cmd; Cerr (spawn_failure_line cmd)].
Proof. intros H. now rewrite runCommandAndPrint_eq, H. Qed.

(** The [i]-th planned query, when its [popen] fails, leaves the failure
    line right after its [EPopen] event; [i] backends were started
    before it. *)
Lemma report_events_spawn_failure v4l2CtlPath devices n i cmd :
  nth_error (planned_cmds v4l2CtlPath devices) i = Some cmd ->
  popen w (n + i) cmd = None ->
  exists t1 t2,
    report_events w v4l2CtlPath devices n =
      (t1 ++ EPopen cmd :: Cerr (spawn_failure_line cmd) :: t2)%list
    /\ List.length (popen_cmds t1) = i.
Proof.
  revert n i. induction devices as [|dev more IH]; intros n i Hnth Hfail.
  - destruct i; discriminate.
  - cbn [planned_cmds flat_map app] in Hnth. cbn [report_events].
    destruct i as [|[|i]]; cbn [nth_error] in Hnth.
    + injection Hnth as <-. rewrite Nat.add_0_r in Hfail.
      unfold device_events.
      rewrite (runCommandAndPrint_spawn_failure _ _ Hfail).
      exists (banner dev ++ [Cout label_all])%list. eexists. split.
      * rewrite <- !app_assoc. cbn [app]. reflexivity.
      * reflexivity.
    + injection Hnth as <-. replace (n + 1) with (S n) in Hfail by lia.
      unfold device_events.
      rewrite (runCommandAndPrint_spawn_failure _ _ Hfail).
      exists (banner dev
              ++ Cout label_all
              :: trace (runCommandAndPrint w (cmd_all v4l2CtlPath dev) n)
              ++ [Cout nl; Cout label_formats])%list.
      eexists. split.
      * rewrite <- !app_assoc. cbn [app]. rewrite <- !app_assoc.
        cbn [app]. reflexivity.
      * split_trace. rewrite popen_cmds_runCommandAndPrint. reflexivity.
    + replace (n + S (S i)) with (S (S n) + i) in Hfail by lia.
      destruct (IH (S (S n)) i Hnth Hfail) as (t1 & t2 & Heq & Hlen).
      exists (device_events w v4l2CtlPath dev n ++ t1)%list, t2. split.
      * rewrite Heq, <- app_assoc. reflexivity.
      * rewrite popen_cmds_app, popen_cmds_device, length_app, Hlen.
        reflexivity.
Qed.

(** C3: with the backend located, a [popen] that fails for the [i]-th
    query is reported on standard error by a line naming the command,
    written right after the attempt; the run still attempts every query
    planned for every device and exits with status 0. *)
Theorem spawn_failure_is_local (v4l2CtlPath : string) :
  located w = Some v4l2CtlPath ->
  exit_code w = 0%Z
  /\ popen_cmds (trace (run w)) = planned_cmds v4l2CtlPath (device_set w)
  /\ (forall i cmd,
        nth_error (planned_cmds v4l2CtlPath (device_set w)) i = Some cmd ->
        popen w i cmd = None ->
        exists t1 t2,
          trace (run w) =
            (t1 ++ EPopen cmd :: Cerr (spawn_failure_line cmd) :: t2)%list
          /\ List.length (popen_cmds t1) = i).
Proof.
  intros Hloc.
  split; [now apply (exit_code_located v4l2CtlPath)|].
  split; [now apply popen_cmds_run|].
  intros i cmd Hnth Hfail.
  rewrite run_eq, Hloc.
  destruct (glob_matched w) eqn:Hglob.
  - destruct (device_set w) as [|dev more] eqn:Hdev.
    + destruct i; discriminate.
    + destruct (report_events_spawn_failure v4l2CtlPath (dev :: more) 0 i cmd
                  Hnth Hfail) as (t1 & t2 & Heq & Hlen).
      exists (locate_events w ++ intro_events ++ discovery_events w ++ t1)%list,
        (t2 ++ [EGlobfree])%list.
      unfold trace; cbn [fst snd]. split.
      * rewrite Heq, <- !app_assoc. reflexivity.
      * rewrite !app_assoc, popen_cmds_app, <- !app_assoc.
        rewrite popen_cmds_before_report. exact Hlen.
  - rewrite device_set_eq, Hglob in Hnth. destruct i; discriminate.
Qed.

End Run.

(** ** One backend query *)

Section Query.

Variable w : World.

Lemma exit_status_nonneg code : (0 <= exit_status code)%Z.
Proof.
  unfold exit_status. apply Z.shiftl_nonneg, Z.land_nonneg. right. lia.
Qed.

Lemma exit_status_not_failure code : Z.eqb (exit_status code) (-1) = false.
Proof. pose proof (exit_status_nonneg code). lia. Qed.

Lemma stdout_of_section child :
  stdout_of (section_events child) =
    stdout_of (fst (fgets_loop (child_stdout child) false))
    ++ (if nonempty (child_stdout child) then "" else no_output_marker).
Proof.
  unfold section_events. split_trace.
  destruct (nonempty (child_stdout child)), (Z.eqb (pclose_ret child) (-1));
    cbn [stdout_of]; rewrite ?append_nil_r; reflexivity.
Qed.

End Query.

(** A backend whose output holds a NUL byte: the section shows only what
    precedes it, so the output is not forwarded as it is. *)
Lemma nul_output_is_cut :
  let cmd := cmd_all "/usr/bin/v4l2-ctl" "/dev/video0" in
  option_map child_stdout (popen Samples.nul_backend 0 cmd)
    = Some Samples.binary_output
  /\ stdout_of (trace (runCommandAndPrint Samples.nul_backend cmd 0)) = "a"
  /\ stdout_of (trace (runCommandAndPrint Samples.nul_backend cmd 0))
       <> Samples.binary_output.
Proof.
  cbv zeta. split; [reflexivity|].
  assert (E : stdout_of
                (trace (runCommandAndPrint Samples.nul_backend
                          (cmd_all "/usr/bin/v4l2-ctl" "/dev/video0") 0)) = "a")
    by (vm_compute; reflexivity).
  split; [exact E|]. rewrite E. discriminate.
Qed.

(** ** Discovery *)

Definition close_failure_line (msg : string) : string :=
  "Error closing command stream: " ++ msg ++ nl.

Lemma listing_line_inj a b : listing_line a = listing_line b -> a = b.
Proof.
  unfold listing_line. intros H.
  apply append_cancel_l in H. now apply append_cancel_r in H.
Qed.

Lemma banner_line_inj a b : banner_line a = banner_line b -> a = b.
Proof.
  unfold banner_line. intros H.
  apply append_cancel_l in H. now apply append_cancel_r in H.
Qed.

Lemma In_popen_cmds t cmd : In (EPopen cmd) t <-> In cmd (popen_cmds t).
Proof.
  induction t as [|e t IH]; [reflexivity|].
  destruct e; cbn [popen_cmds In]; rewrite <- IH;
    try (split; [intros [H|H]; [discriminate | exact H] | now right]).
  split; (intros [H|H]; [left; congruence | now right]).
Qed.

Lemma existsb_false_In {A} (p : A -> bool) (l : list A) (x : A) :
  existsb p l = false -> In x l -> p x = false.
Proof.
  intros Hex Hin. destruct (p x) eqn:E; [|reflexivity].
  rewrite <- Hex. symmetry. apply existsb_exists. now exists x.
Qed.

Section Discovery.

Variable w : World.

(** The devices a run reports on: none when no backend was located. *)
Definition reported : list string :=
  match located w with
  | Some _ => device_set w
  | None => []
  end.

Lemma device_set_incl path :
  In path (device_set w) -> is_char_device w path = true.
Proof.
  rewrite device_set_eq. destruct (glob_matched w); [|contradiction].
  intros H. now apply filter_In in H.
Qed.

Lemma listing_lines_scan pathv :
  listing_lines (scan_events w pathv) =
    map listing_line (filter (is_char_device w) pathv).
Proof.
  unfold listing_lines.
  induction pathv as [|path more IH]; [reflexivity|].
  cbn [scan_events filter lines_with].
  destruct (is_char_device w path); cbn [app map lines_with]; rewrite IH;
    reflexivity.
Qed.

Lemma blind_listing : blind_to_report (is_line_with "  - ").
Proof. repeat split. Qed.

Lemma lines_with_locate pattern :
  lines_with pattern (locate_events w) = [].
Proof.
  apply lines_with_quiet.
  now apply only_locate_existsb; [| |apply locate_events_only].
Qed.

Lemma listing_lines_run :
  listing_lines (trace (run w)) = map listing_line reported.
Proof.
  unfold reported, listing_lines. rewrite run_eq.
  destruct (located w) as [v4l2CtlPath|]; unfold trace.
  - destruct (glob_matched w) eqn:Hglob.
    + assert (Hdisc : lines_with "  - " (discovery_events w) =
                        map listing_line (device_set w)).
      { unfold discovery_events. cbn [lines_with starts_with].
        rewrite lines_with_app. fold listing_lines.
        rewrite listing_lines_scan, device_set_eq, Hglob.
        cbn [listing_lines lines_with]. apply app_nil_r. }
      destruct (device_set w) as [|dev more] eqn:Hdev; cbn [fst snd];
        rewrite !lines_with_app, lines_with_locate, Hdisc.
      * reflexivity.
      * rewrite (lines_with_quiet _ (report_events w _ _ _)).
        -- cbn [lines_with app]. apply app_nil_r.
        -- apply report_events_quiet; try reflexivity. apply blind_listing.
    + cbn [fst snd]. rewrite device_set_eq, Hglob.
      rewrite !lines_with_app, lines_with_locate. reflexivity.
  - cbn [fst snd]. rewrite lines_with_app, lines_with_locate. reflexivity.
Qed.

Lemma banner_lines_run_reported :
  banner_lines (trace (run w)) = map banner_line reported.
Proof.
  unfold reported. destruct (located w) as [v4l2CtlPath|] eqn:Hloc.
  - now apply banner_lines_run with (v4l2CtlPath := v4l2CtlPath).
  - unfold banner_lines. rewrite run_eq, Hloc. unfold trace. cbn [fst snd].
    rewrite lines_with_app, lines_with_locate. reflexivity.
Qed.

Lemma In_Cerr_runCommandAndPrint cmd n text :
  In (Cerr text) (trace (runCommandAndPrint w cmd n)) ->
  text = spawn_failure_line cmd \/ exists msg, text = close_failure_line msg.
Proof.
  rewrite runCommandAndPrint_eq.
  destruct (popen w n cmd) as [child|]; unfold trace; cbn [fst snd].
  - intros [H|H]; [discriminate|].
    unfold section_events in H.
    rewrite !in_app_iff in H. destruct H as [H|[H|H]].
    + pose proof (fgets_loop_all_fwd (child_stdout child) false) as Hfwd.
      rewrite forallb_forall in Hfwd. apply Hfwd in H. discriminate.
    + destruct (nonempty (child_stdout child)); [contradiction|].
      destruct H as [H|[]]. discriminate.
    + destruct H as [H|H]; [discriminate|].
      destruct (Z.eqb (pclose_ret child) (-1)); [|contradiction].
      destruct H as [H|[]]. injection H as <-.
      right. now exists (pclose_strerror child).
  - intros [H|[H|[]]]; [discriminate|]. injection H as <-. now left.
Qed.

Lemma In_Cerr_report v4l2CtlPath devices n text :
  In (Cerr text) (report_events w v4l2CtlPath devices n) ->
  (exists cmd,
      In cmd (planned_cmds v4l2CtlPath devices)
      /\ text = spawn_failure_line cmd)
  \/ exists msg, text = close_failure_line msg.
Proof.
  revert n. induction devices as [|dev more IH]; intros n; [contradiction|].
  cbn [report_events planned_cmds flat_map]. rewrite in_app_iff.
  intros [H|H].
  - unfold device_events, banner in H.
    cbn [app In] in H. rewrite !in_app_iff in H. cbn [In] in H.
    rewrite !in_app_iff in H. cbn [In] in H.
    repeat match type of H with
           | _ \/ _ => destruct H as [H|H]
           | Cout _ = Cerr _ => discriminate H
           | False => contradiction
           end.
    + apply In_Cerr_runCommandAndPrint in H. destruct H as [->|H]; [|now right].
      left. eexists. split; [|reflexivity]. cbn [app In]. now left.
    + apply In_Cerr_runCommandAndPrint in H. destruct H as [->|H]; [|now right].
      left. eexists. split; [|reflexivity]. cbn [app In]. right. now left.
  - apply IH in H. destruct H as [(cmd & Hcmd & ->)|H]; [|now right].
    left. exists cmd. split; [|reflexivity].
    cbn [app In]. right. right. exact Hcmd.
Qed.

Lemma In_Cerr_before_report text :
  ~ In (Cerr text) (locate_events w ++ intro_events ++ discovery_events w)%list.
Proof.
  intros H.
  assert (Hq : existsb is_stderr
                 (locate_events w ++ intro_events ++ discovery_events w)%list
               = false).
  { split_trace.
    rewrite (only_locate_existsb is_stderr _ (fun _ => eq_refl)
               (fun _ => eq_refl) (locate_events_only w)).
    unfold discovery_events. split_trace.
    now rewrite scan_events_quiet. }
  apply (existsb_false_In _ _ _ Hq) in H. discriminate.
Qed.

(** Every line the run writes to standard error. *)
Lemma In_Cerr_run text :
  In (Cerr text) (trace (run w)) ->
  (located w = None /\ text = not_found_diag)
  \/ (exists v4l2CtlPath cmd,
         located w = Some v4l2CtlPath
         /\ In cmd (planned_cmds v4l2CtlPath (device_set w))
         /\ text = spawn_failure_line cmd)
  \/ exists msg, text = close_failure_line msg.
Proof.
  rewrite run_eq. destruct (located w) as [v4l2CtlPath|] eqn:Hloc.
  - pose proof (In_Cerr_before_report text) as Hpre.
    destruct (glob_matched w) eqn:Hglob.
    + destruct (device_set w) as [|dev more] eqn:Hdev;
        unfold trace; cbn [fst snd]; rewrite !app_assoc, in_app_iff,
          <- !app_assoc; intros [H|H].
      * contradiction.
      * destruct H as [H|[H|[]]]; discriminate.
      * rewrite !app_assoc, in_app_iff, <- !app_assoc in H.
        destruct H as [H|H]; [contradiction|].
        apply In_Cerr_report in H. destruct H as [(cmd & Hcmd & ->)|H].
        -- right. left. now exists v4l2CtlPath, cmd.
        -- now do 2 right.
      * destruct H as [H|[]]. discriminate.
    + unfold trace; cbn [fst snd]. rewrite !in_app_iff.
      intros [H|[H|H]].
      * apply (existsb_false_In is_stderr) in H; [discriminate|].
        now apply only_locate_existsb; [| |apply locate_events_only].
      * unfold intro_events in H. apply in_map_iff in H.
        destruct H as (x & Hx & _). discriminate.
      * destruct H as [H|[H|[H|[]]]]; discriminate.
  - unfold trace; cbn [fst snd]. rewrite in_app_iff. intros [H|H].
    + apply (existsb_false_In is_stderr) in H; [discriminate|].
      now apply only_locate_existsb; [| |apply locate_events_only].
    + destruct H as [H|[]]. injection H as <-. now left.
Qed.

(** Every backend the run starts. *)
Lemma In_EPopen_run cmd :
  In (EPopen cmd) (trace (run w)) ->
  exists v4l2CtlPath device,
    located w = Some v4l2CtlPath
    /\ In device (device_set w)
    /\ (cmd = cmd_all v4l2CtlPath device \/ cmd = cmd_formats v4l2CtlPath device).
Proof.
  rewrite In_popen_cmds.
  destruct (located w) as [v4l2CtlPath|] eqn:Hloc.
  - rewrite (popen_cmds_run w _ Hloc). unfold planned_cmds.
    rewrite in_flat_map. intros (device & Hdev & Hcmd).
    exists v4l2CtlPath, device. repeat split; auto.
    destruct Hcmd as [<-|[<-|[]]]; auto.
  - rewrite run_eq, Hloc. unfold trace; cbn [fst snd].
    rewrite popen_cmds_silent; [contradiction|].
    split_trace.
    now rewrite only_locate_existsb; [| | |apply locate_events_only].
Qed.

(** C6: an entry that is not a character device is not in the device
    set; the run never lists it, never prints a banner for it, starts no
    backend except for members of the device set, and writes to standard
    error only the missing-backend diagnostic and the failure lines of
    queries on members of the device set. *)
Theorem non_character_entry_is_skipped (path : string) :
  is_char_device w path = false ->
  ~ In path (device_set w)
  /\ ~ In (Cout (listing_line path)) (trace (run w))
  /\ ~ In (Cout (banner_line path)) (trace (run w))
  /\ (forall cmd,
        In (EPopen cmd) (trace (run w)) ->
        exists v4l2CtlPath device,
          located w = Some v4l2CtlPath
          /\ In device (device_set w) /\ device <> path
          /\ (cmd = cmd_all v4l2CtlPath device
              \/ cmd = cmd_formats v4l2CtlPath device))
  /\ (forall text,
        In (Cerr text) (trace (run w)) ->
        (located w = None /\ text = not_found_diag)
        \/ (exists v4l2CtlPath cmd,
               located w = Some v4l2CtlPath
               /\ In cmd (planned_cmds v4l2CtlPath (device_set w))
               /\ text = spawn_failure_line cmd)
        \/ exists msg, text = close_failure_line msg).
Proof.
  intros Hnot.
  assert (Hout : ~ In path (device_set w)).
  { intros Hin. apply device_set_incl in Hin. congruence. }
  assert (Hrep : ~ In path reported).
  { unfold reported. destruct (located w); [exact Hout | intros []]. }
  split; [exact Hout|]. split; [|split; [|split]].
  - intros Hin. apply (In_lines_with "  - ") in Hin; [|reflexivity].
    fold listing_lines in Hin. rewrite listing_lines_run in Hin.
    apply in_map_iff in Hin. destruct Hin as (d & Heq & Hd).
    apply listing_line_inj in Heq. now subst d.
  - intros Hin. apply (In_lines_with "DEVICE: ") in Hin; [|reflexivity].
    fold banner_lines in Hin. rewrite banner_lines_run_reported in Hin.
    apply in_map_iff in Hin. destruct Hin as (d & Heq & Hd).
    apply banner_line_inj in Heq. now subst d.
  - intros cmd Hin. apply In_EPopen_run in Hin.
    destruct Hin as (v4l2CtlPath & device & Hloc & Hdev & Hcmd).
    exists v4l2CtlPath, device. repeat split; auto.
    intros ->. contradiction.
  - apply In_Cerr_run.
Qed.

End Discovery.

(** ** The backend path *)

Section BackendPath.

Variable w : World.

Lemma located_is_candidate v4l2CtlPath :
  located w = Some v4l2CtlPath ->
  exists paths entry,
    getenv w "PATH" = Some paths
    /\ In entry (search_path_entries paths)
    /\ v4l2CtlPath = candidate_of entry.
Proof.
  rewrite located_eq. intros H. apply find_some in H. destruct H as [Hin _].
  unfold path_candidates in Hin.
  destruct (getenv w "PATH") as [paths|]; [|contradiction].
  apply in_map_iff in Hin. destruct Hin as (entry & <- & Hentry).
  now exists paths, entry.
Qed.

Lemma search_path_entry_nonempty paths entry :
  In entry (search_path_entries paths) -> entry <> "".
Proof.
  unfold search_path_entries. rewrite filter_In. intros [_ H] ->.
  discriminate.
Qed.

Lemma candidate_absolute entry :
  entry <> "" -> is_absolute (candidate_of entry) = is_absolute entry.
Proof. destruct entry; [congruence | reflexivity]. Qed.

Lemma getenv_once :
  filter is_getenv (locate_events w) = [EGetenv "PATH"].
Proof.
  rewrite locate_events_eq. cbn [filter is_getenv]. f_equal.
  induction (probed w (path_candidates w)) as [|c l IH]; [reflexivity|].
  exact IH.
Qed.

Lemma blind_locate : blind_to_report is_locate.
Proof. now apply blind_to_cout. Qed.

(** After the locator has answered, the run never consults the search
    path again. *)
Lemma run_after_locate :
  exists rest,
    trace (run w) = (locate_events w ++ rest)%list
    /\ existsb is_locate rest = false.
Proof.
  rewrite run_eq.
  assert (Hdisc : existsb is_locate (discovery_events w) = false).
  { unfold discovery_events. split_trace. now rewrite scan_events_quiet. }
  destruct (located w) as [v4l2CtlPath|].
  - destruct (glob_matched w).
    + destruct (device_set w) as [|dev more]; unfold trace; cbn [fst snd];
        eexists; (split; [reflexivity|]); split_trace; rewrite Hdisc.
      * reflexivity.
      * rewrite report_events_quiet; auto using blind_locate.
    + unfold trace; cbn [fst snd]. eexists. split; reflexivity.
  - unfold trace; cbn [fst snd]. eexists. split; reflexivity.
Qed.

(** C8, as the code has it: the backend path is a non-empty search-path
    entry followed by [/v4l2-ctl], so it is absolute exactly when that
    entry is; [PATH] is read once, before anything else, the search path
    is not consulted again, and every backend started in the run is
    started through that path. *)
Theorem backend_path_resolved_once (v4l2CtlPath : string) :
  located w = Some v4l2CtlPath ->
  (exists paths entry,
      getenv w "PATH" = Some paths
      /\ In entry (search_path_entries paths)
      /\ v4l2CtlPath = candidate_of entry
      /\ is_absolute v4l2CtlPath = is_absolute entry)
  /\ (exists rest,
        trace (run w) = (locate_events w ++ rest)%list
        /\ existsb is_locate rest = false)
  /\ filter is_getenv (trace (run w)) = [EGetenv "PATH"]
  /\ (forall cmd,
        In (EPopen cmd) (trace (run w)) ->
        exists device,
          In device (device_set w)
          /\ (cmd = cmd_all v4l2CtlPath device
              \/ cmd = cmd_formats v4l2CtlPath device)).
Proof.
  intros Hloc. split; [|split; [|split]].
  - destruct (located_is_candidate _ Hloc) as (paths & entry & Henv & Hin & ->).
    exists paths, entry. repeat split; auto.
    apply candidate_absolute. now apply search_path_entry_nonempty in Hin.
  - apply run_after_locate.
  - destruct run_after_locate as (rest & -> & Hrest).
    rewrite filter_app, getenv_once.
    rewrite (filter_none is_getenv rest); [reflexivity|].
    clear - Hrest. induction rest as [|e rest IH]; [reflexivity|].
    cbn [existsb] in *. apply orb_false_elim in Hrest.
    destruct Hrest as [He Hrest]. rewrite (IH Hrest).
    destruct e; try reflexivity; discriminate.
  - intros cmd Hin. apply In_EPopen_run in Hin.
    destruct Hin as (p & device & Hp & Hdev & Hcmd).
    assert (p = v4l2CtlPath) by congruence. subst p.
    now exists device.
Qed.

End BackendPath.

(** A search path that names the current directory yields a backend path
    that is not absolute. *)
Lemma relative_entry_gives_relative_path :
  located Samples.relative_entry = Some "./v4l2-ctl"
  /\ is_absolute "./v4l2-ctl" = false.
Proof. split; vm_compute; reflexivity. Qed.

(** ** Two runs *)

(** What a query makes visible of its child: nothing when [popen] fails,
    the bytes written otherwise. *)
Definition output_of (r : option Child) : option string :=
  option_map child_stdout r.

(** Same pattern matches, and the same answer to the character-device
    test on each of them. *)
Definition same_namespace (w1 w2 : World) : Prop :=
  glob w1 video_pattern = glob w2 video_pattern
  /\ forall path,
       In path (gl_pathv (glob w1 video_pattern)) ->
       is_char_device w1 path = is_char_device w2 path.

(** The backend is found in both runs or in neither, and each query of
    the run gives the same output text. *)
Definition same_backend (w1 w2 : World) : Prop :=
  match located w1, located w2 with
  | None, None => True
  | Some p1, Some p2 =>
      forall n device,
        In device (device_set w1) ->
        output_of (popen w1 n (cmd_all p1 device)) =
          output_of (popen w2 n (cmd_all p2 device))
        /\ output_of (popen w1 n (cmd_formats p1 device)) =
             output_of (popen w2 n (cmd_formats p2 device))
  | _, _ => False
  end.

Section TwoRuns.

Variables w1 w2 : World.

Lemma stdout_of_query (w : World) cmd n :
  stdout_of (trace (runCommandAndPrint w cmd n)) =
    match output_of (popen w n cmd) with
    | None => ""
    | Some out =>
        stdout_of (fst (fgets_loop out false))
        ++ (if nonempty out then "" else no_output_marker)
    end.
Proof.
  rewrite runCommandAndPrint_eq.
  destruct (popen w n cmd) as [child|]; unfold trace; cbn [fst snd];
    [|reflexivity].
  cbn [stdout_of output_of option_map]. apply stdout_of_section.
Qed.

Lemma stdout_of_device p1 p2 device n :
  output_of (popen w1 n (cmd_all p1 device)) =
    output_of (popen w2 n (cmd_all p2 device)) ->
  output_of (popen w1 (S n) (cmd_formats p1 device)) =
    output_of (popen w2 (S n) (cmd_formats p2 device)) ->
  stdout_of (device_events w1 p1 device n) =
    stdout_of (device_events w2 p2 device n).
Proof.
  intros Hall Hformats. unfold device_events. split_trace.
  now rewrite !stdout_of_query, Hall, Hformats.
Qed.

Lemma stdout_of_report p1 p2 devices n :
  (forall m device,
      In device devices ->
      output_of (popen w1 m (cmd_all p1 device)) =
        output_of (popen w2 m (cmd_all p2 device))
      /\ output_of (popen w1 m (cmd_formats p1 device)) =
           output_of (popen w2 m (cmd_formats p2 device))) ->
  stdout_of (report_events w1 p1 devices n) =
    stdout_of (report_events w2 p2 devices n).
Proof.
  revert n. induction devices as [|dev more IH]; intros n Hsame;
    [reflexivity|].
  cbn [report_events]. rewrite !stdout_of_app. f_equal.
  - apply stdout_of_device; apply Hsame; now left.
  - apply IH. intros m device Hin. apply Hsame. now right.
Qed.

Hypothesis Hnamespace : same_namespace w1 w2.

Lemma glob_matched_same : glob_matched w1 = glob_matched w2.
Proof. unfold glob_matched. now rewrite (proj1 Hnamespace). Qed.

Lemma scan_events_same pathv :
  (forall path, In path pathv -> is_char_device w1 path = is_char_device w2 path) ->
  scan_events w1 pathv = scan_events w2 pathv.
Proof.
  induction pathv as [|path more IH]; intros Hsame; [reflexivity|].
  cbn [scan_events]. rewrite (Hsame path (or_introl eq_refl)), IH;
    [reflexivity|].
  intros p Hp. apply Hsame. now right.
Qed.

Lemma discovery_events_same : discovery_events w1 = discovery_events w2.
Proof.
  destruct Hnamespace as [Hglob Htype]. unfold discovery_events.
  rewrite <- Hglob. now rewrite scan_events_same.
Qed.

Lemma device_set_same : device_set w1 = device_set w2.
Proof.
  destruct Hnamespace as [Hglob Htype].
  rewrite !device_set_eq, <- glob_matched_same, <- Hglob.
  destruct (glob_matched w1); [|reflexivity].
  now apply filter_ext_in.
Qed.

(** C9: two runs over the same device namespace, in which the backend is
    found or not alike and every query returns the same output text,
    write the same bytes to standard output and exit with the same
    status. *)
Theorem report_is_deterministic :
  same_backend w1 w2 ->
  stdout_of (trace (run w1)) = stdout_of (trace (run w2))
  /\ exit_code w1 = exit_code w2.
Proof.
  unfold same_backend, exit_code. intros Hbackend.
  assert (Hquiet : forall w, stdout_of (locate_events w) = "").
  { intros w. apply stdout_of_silent.
    now apply only_locate_existsb; [| |apply locate_events_only]. }
  rewrite !run_eq, <- glob_matched_same, <- device_set_same,
    <- discovery_events_same.
  destruct (located w1) as [p1|], (located w2) as [p2|]; try contradiction.
  - destruct (glob_matched w1).
    + destruct (device_set w1) as [|dev more] eqn:Hdev;
        unfold result, trace; cbn [fst snd]; (split; [|reflexivity]);
        rewrite !stdout_of_app, !Hquiet; [reflexivity|].
      do 4 f_equal. now apply stdout_of_report.
    + unfold result, trace; cbn [fst snd]. split; [|reflexivity].
      now rewrite !stdout_of_app, !Hquiet.
  - unfold result, trace; cbn [fst snd]. split; [|reflexivity].
    now rewrite !stdout_of_app, !Hquiet.
Qed.

End TwoRuns.

(** ** The theorems on the sample hosts *)

Lemma missing_backend_is_fatal_no_backend :
  located Samples.no_backend = None
  /\ exit_code Samples.no_backend = 1%Z
  /\ stderr_of (trace (run Samples.no_backend)) = not_found_diag
  /\ existsb is_scan (trace (run Samples.no_backend)) = false.
Proof.
  assert (H : located Samples.no_backend = None) by (vm_compute; reflexivity).
  split; [exact H|].
  destruct (missing_backend_is_fatal Samples.no_backend H)
    as (Hexit & Herr & _ & _ & Hscan & _).
  exact (conj Hexit (conj Herr Hscan)).
Defined.

Lemma spawn_failure_is_local_first_spawn_fails :
  located Samples.first_spawn_fails = Some "/usr/bin/v4l2-ctl"
  /\ exit_code Samples.first_spawn_fails = 0%Z
  /\ popen_cmds (trace (run Samples.first_spawn_fails)) =
       planned_cmds "/usr/bin/v4l2-ctl" (device_set Samples.first_spawn_fails)
  /\ exists t1 t2,
       trace (run Samples.first_spawn_fails) =
         (t1
          ++ EPopen (cmd_all "/usr/bin/v4l2-ctl" "/dev/video0")
          :: Cerr (spawn_failure_line (cmd_all "/usr/bin/v4l2-ctl" "/dev/video0"))
          :: t2)%list
       /\ List.length (popen_cmds t1) = 0.
Proof.
  assert (H : located Samples.first_spawn_fails = Some "/usr/bin/v4l2-ctl")
    by (vm_compute; reflexivity).
  split; [exact H|].
  destruct (spawn_failure_is_local Samples.first_spawn_fails _ H)
    as (Hexit & Hcmds & Hfail).
  refine (conj Hexit (conj Hcmds (Hfail 0 _ _ _))); vm_compute; reflexivity.
Defined.

Lemma no_device_is_not_an_error_only_regular :
  located Samples.only_regular = Some "/usr/bin/v4l2-ctl"
  /\ device_set Samples.only_regular = []
  /\ exit_code Samples.only_regular = 0%Z
  /\ stderr_of (trace (run Samples.only_regular)) = "".
Proof.
  assert (H : located Samples.only_regular = Some "/usr/bin/v4l2-ctl")
    by (vm_compute; reflexivity).
  assert (Hnone : device_set Samples.only_regular = [])
    by (vm_compute; reflexivity).
  destruct (no_device_is_not_an_error Samples.only_regular _ H Hnone)
    as (Hexit & _ & Herr & _).
  exact (conj H (conj Hnone (conj Hexit Herr))).
Defined.

Lemma non_character_entry_is_skipped_two_nodes :
  is_char_device Samples.two_nodes "/dev/video1" = false
  /\ ~ In "/dev/video1" (device_set Samples.two_nodes)
  /\ ~ In (Cout (banner_line "/dev/video1")) (trace (run Samples.two_nodes)).
Proof.
  assert (H : is_char_device Samples.two_nodes "/dev/video1" = false)
    by (vm_compute; reflexivity).
  split; [exact H|].
  destruct (non_character_entry_is_skipped Samples.two_nodes _ H)
    as (Hset & _ & Hbanner & _).
  exact (conj Hset Hbanner).
Defined.

Lemma backend_path_resolved_once_relative_entry :
  located Samples.relative_entry = Some "./v4l2-ctl"
  /\ filter is_getenv (trace (run Samples.relative_entry)) = [EGetenv "PATH"].
Proof.
  assert (H : located Samples.relative_entry = Some "./v4l2-ctl")
    by (vm_compute; reflexivity).
  split; [exact H|].
  destruct (backend_path_resolved_once Samples.relative_entry _ H)
    as (_ & _ & Honce & _).
  exact Honce.
Defined.

Lemma report_is_deterministic_two_nodes_moved :
  same_namespace Samples.two_nodes Samples.two_nodes_moved
  /\ same_backend Samples.two_nodes Samples.two_nodes_moved
  /\ stdout_of (trace (run Samples.two_nodes)) =
       stdout_of (trace (run Samples.two_nodes_moved))
  /\ exit_code Samples.two_nodes = exit_code Samples.two_nodes_moved.
Proof.
  assert (Hns : same_namespace Samples.two_nodes Samples.two_nodes_moved).
  { split; [reflexivity|]. intros path _. reflexivity. }
  assert (Hbk : same_backend Samples.two_nodes Samples.two_nodes_moved).
  { unfold same_backend.
    replace (located Samples.two_nodes) with (Some "/usr/bin/v4l2-ctl")
      by (vm_compute; reflexivity).
    replace (located Samples.two_nodes_moved) with (Some "/opt/v4l/bin/v4l2-ctl")
      by (vm_compute; reflexivity).
    intros n device _. destruct n; split; reflexivity. }
  split; [exact Hns|]. split; [exact Hbk|].
  exact (report_is_deterministic _ _ Hns Hbk).
Defined.

(** ** Further properties of the run *)

Definition is_glob_call (e : Event) : bool :=
  match e with EGlob _ | EGlobfree => true | _ => false end.

Lemma locate_events_quiet (w : World) (p : Event -> bool) :
  (forall name, p (EGetenv name) = false) ->
  (forall path, p (EAccess path) = false) ->
  existsb p (locate_events w) = false.
Proof.
  intros Hg Ha. apply only_locate_existsb; auto. apply locate_events_only.
Qed.

Lemma intro_events_quiet (p : Event -> bool) :
  (forall text, p (Cout text) = false) -> existsb p intro_events = false.
Proof.
  intros Hc. unfold intro_events.
  induction intro_text as [|text more IH]; [reflexivity|].
  cbn [map existsb]. now rewrite Hc, IH.
Qed.

Lemma filter_scan_events (w : World) pathv :
  filter is_scan (scan_events w pathv) = map EStat pathv.
Proof.
  induction pathv as [|path more IH]; [reflexivity|].
  cbn [scan_events filter is_scan map]. rewrite filter_app, IH.
  destruct (is_char_device w path); reflexivity.
Qed.

Section RunShape.

Variable w : World.

(** X1: the exit status is 1 when no backend was located and 0 in every
    other run; no other status is returned. *)
Theorem exit_code_is_zero_or_one :
  exit_code w = match located w with None => 1%Z | Some _ => 0%Z end
  /\ (exit_code w = 1%Z <-> located w = None)
  /\ (exit_code w = 0%Z <-> located w <> None).
Proof.
  assert (H : exit_code w = match located w with None => 1%Z | Some _ => 0%Z end).
  { unfold exit_code. rewrite run_eq.
    destruct (located w); [|reflexivity].
    destruct (glob_matched w); [|reflexivity].
    destruct (device_set w); reflexivity. }
  split; [exact H|]. rewrite H.
  destruct (located w); split; split; congruence.
Qed.

(** X2: a run that located the backend calls [glob] once, on the pattern
    [/dev/video*], and ends with the one [globfree] on every path out of
    [main]; a run without backend calls neither. *)
Theorem glob_result_is_freed :
  match located w with
  | None => existsb is_glob_call (trace (run w)) = false
  | Some _ =>
      exists before between,
        trace (run w) =
          (before ++ EGlob video_pattern :: between ++ [EGlobfree])%list
        /\ existsb is_glob_call before = false
        /\ existsb is_glob_call between = false
  end.
Proof.
  rewrite run_eq.
  assert (Hloc : existsb is_glob_call (locate_events w) = false)
    by now apply locate_events_quiet.
  assert (Hintro : existsb is_glob_call intro_events = false)
    by now apply intro_events_quiet.
  destruct (located w) as [v4l2CtlPath|]; unfold trace; cbn [fst snd].
  - exists (locate_events w ++ intro_events)%list.
    destruct (glob_matched w).
    + destruct (device_set w) as [|dev more]; unfold discovery_events.
      * exists (Cout ("Discovered video devices:" ++ nl)
                :: scan_events w (gl_pathv (glob w video_pattern))
                ++ [Cout nl; Cout no_char_device_msg])%list.
        split; [|split].
        -- rewrite <- !app_assoc. cbn [app]. rewrite <- !app_assoc.
           reflexivity.
        -- now rewrite existsb_app, Hloc, Hintro.
        -- split_trace. now rewrite scan_events_quiet.
      * exists (Cout ("Discovered video devices:" ++ nl)
                :: scan_events w (gl_pathv (glob w video_pattern))
                ++ Cout nl
                :: report_events w v4l2CtlPath (dev :: more) 0)%list.
        split; [|split].
        -- rewrite <- !app_assoc. cbn [app]. rewrite <- !app_assoc.
           reflexivity.
        -- now rewrite existsb_app, Hloc, Hintro.
        -- split_trace. rewrite scan_events_quiet by auto.
           rewrite report_events_quiet; auto using blind_to_cout.
    + exists [Cout no_glob_match_msg]. split; [|split].
      * rewrite <- !app_assoc. reflexivity.
      * now rewrite existsb_app, Hloc, Hintro.
      * reflexivity.
  - now rewrite existsb_app, Hloc.
Qed.

(** X3: discovery is complete before reporting starts.  With the backend
    located, [glob] is followed by one [stat] for each match, in the
    order of the matches, and by no other [stat]; when [glob] fails or
    matches nothing no [stat] is made at all.  No backend is started
    before the last [stat], and none of the devices is looked at again
    once the first backend has been started. *)
Theorem discovery_precedes_reporting (v4l2CtlPath : string) :
  located w = Some v4l2CtlPath ->
  filter is_scan (trace (run w)) =
    EGlob video_pattern
    :: (if glob_matched w then map EStat (gl_pathv (glob w video_pattern))
        else [])
  /\ exists discovery reporting,
       trace (run w) = (discovery ++ reporting)%list
       /\ existsb is_popen discovery = false
       /\ existsb is_scan reporting = false
       /\ popen_cmds reporting = planned_cmds v4l2CtlPath (device_set w).
Proof.
  intros Hloc.
  assert (Hscan : filter is_scan (locate_events w ++ intro_events)%list = []).
  { apply filter_none. rewrite existsb_app.
    rewrite locate_events_quiet, intro_events_quiet; auto. }
  assert (Hdisc : filter is_scan (discovery_events w) =
                    EGlob video_pattern
                    :: map EStat (gl_pathv (glob w video_pattern))).
  { unfold discovery_events. cbn [filter is_scan].
    rewrite filter_app, filter_scan_events. cbn [filter is_scan].
    now rewrite app_nil_r. }
  assert (Hpre : existsb is_popen
                   (locate_events w ++ intro_events ++ discovery_events w)%list
                 = false).
  { rewrite !existsb_app, locate_events_quiet, intro_events_quiet by auto.
    unfold discovery_events. split_trace. now rewrite scan_events_quiet. }
  rewrite run_eq, Hloc. unfold trace.
  destruct (glob_matched w) eqn:Hglob; cbn [fst snd].
  - destruct (device_set w) as [|dev more] eqn:Hdev; cbn [fst snd].
    + split.
      * rewrite app_assoc, filter_app, Hscan, filter_app, Hdisc.
        cbn [filter is_scan app]. now rewrite app_nil_r.
      * exists (locate_events w ++ intro_events ++ discovery_events w)%list,
          [Cout no_char_device_msg; EGlobfree].
        repeat split; auto. now rewrite <- !app_assoc.
    + split.
      * rewrite app_assoc, filter_app, Hscan, !filter_app, Hdisc.
        rewrite (filter_none is_scan (report_events w _ _ _)).
        -- cbn [filter is_scan app]. now rewrite app_nil_r.
        -- apply report_events_quiet; auto using blind_to_cout.
      * exists (locate_events w ++ intro_events ++ discovery_events w)%list,
          (report_events w v4l2CtlPath (dev :: more) 0 ++ [EGlobfree])%list.
        split; [now rewrite <- !app_assoc|]. split; [exact Hpre|]. split.
        -- rewrite existsb_app, report_events_quiet; auto using blind_to_cout.
        -- rewrite popen_cmds_app, popen_cmds_report. apply app_nil_r.
  - split.
    + now rewrite app_assoc, filter_app, Hscan.
    + exists (locate_events w ++ intro_events ++ [EGlob video_pattern])%list,
        [Cout no_glob_match_msg; EGlobfree].
      rewrite device_set_eq, Hglob.
      split; [now rewrite <- !app_assoc|].
      split; [|split; reflexivity].
      rewrite !existsb_app, locate_events_quiet, intro_events_quiet; auto.
Qed.

(** X4: a path is in the device set exactly when [glob] succeeded, listed
    it, and [stat] on it succeeds with the character-device type in
    [st_mode]; a match whose [stat] fails is left out.  The device set
    repeats no path that [glob] did not repeat. *)
Theorem device_set_membership :
  (forall device,
      In device (device_set w) <->
      glob_ret (glob w video_pattern) = 0%Z
      /\ In device (gl_pathv (glob w video_pattern))
      /\ exists mode,
           stat w device = Some mode /\ Z.land mode S_IFMT = S_IFCHR)
  /\ (forall device, stat w device = None -> ~ In device (device_set w))
  /\ (NoDup (gl_pathv (glob w video_pattern)) -> NoDup (device_set w)).
Proof.
  assert (Hchr : forall device,
             is_char_device w device = true <->
             exists mode,
               stat w device = Some mode /\ Z.land mode S_IFMT = S_IFCHR).
  { intros device. unfold is_char_device, S_ISCHR.
    destruct (stat w device) as [mode|].
    - rewrite Z.eqb_eq. split.
      + intros H. now exists mode.
      + intros (m & [= <-] & H). exact H.
    - split; [discriminate|]. intros (m & H & _). discriminate. }
  rewrite device_set_eq. unfold glob_matched.
  split; [|split].
  - intros device.
    destruct (Z.eqb_spec (glob_ret (glob w video_pattern)) 0) as [Hret|Hret];
      cbn [andb].
    + destruct (gl_pathv (glob w video_pattern)) as [|path more] eqn:Hv.
      * cbn. split; [contradiction|]. intros (_ & [] & _).
      * cbn [List.length Nat.eqb negb]. rewrite filter_In, Hchr. tauto.
    + split; [contradiction|]. intros (H & _). contradiction.
  - intros device Hstat Hin.
    destruct (_ && _); [|contradiction].
    apply filter_In in Hin. destruct Hin as [_ Hin].
    unfold is_char_device in Hin. rewrite Hstat in Hin. discriminate.
  - intros Hnodup. destruct (_ && _); [|constructor].
    now apply NoDup_filter.
Qed.

End RunShape.

(** ** The streams opened by [popen] *)

Definition is_some {A} (o : option A) : bool :=
  match o with Some _ => true | None => false end.

(** A monitor for the stream handles of a trace.  [n] [popen] calls were
    made before, [opened] tells whether a stream is open.  It rejects a
    [popen] made while a stream is open, a [pclose] made while none is
    (so also one on the null stream of a failed [popen], and a second
    one on the same stream), and a stream still open at the end. *)
Fixpoint handles_ok (w : World) (n : nat) (opened : bool) (t : Trace) : bool :=
  match t with
  | [] => negb opened
  | EPopen cmd :: t' =>
      negb opened && handles_ok w (S n) (is_some (popen w n cmd)) t'
  | EPclose :: t' => opened && handles_ok w n false t'
  | _ :: t' => handles_ok w n opened t'
  end.

Definition is_handle_call (e : Event) : bool :=
  match e with EPopen _ | EPclose => true | _ => false end.

Lemma handles_ok_skip w n opened t1 t2 :
  existsb is_handle_call t1 = false ->
  handles_ok w n opened (t1 ++ t2)%list = handles_ok w n opened t2.
Proof.
  induction t1 as [|e t1 IH]; [reflexivity|].
  cbn [existsb]. intros H. apply orb_false_elim in H. destruct H as [He H].
  destruct e; try discriminate; cbn [app handles_ok]; now apply IH.
Qed.

Lemma handles_ok_query w cmd n rest :
  handles_ok w n false (trace (runCommandAndPrint w cmd n) ++ rest)%list =
    handles_ok w (S n) false rest.
Proof.
  rewrite runCommandAndPrint_eq.
  destruct (popen w n cmd) as [child|] eqn:Hspawn; unfold trace; cbn [fst snd].
  - cbn [app handles_ok negb andb]. rewrite Hspawn. cbn [is_some].
    unfold section_events. rewrite <- !app_assoc.
    rewrite handles_ok_skip.
    + rewrite handles_ok_skip.
      * cbn [app handles_ok andb]. apply handles_ok_skip.
        destruct (Z.eqb (pclose_ret child) (-1)); reflexivity.
      * destruct (nonempty (child_stdout child)); reflexivity.
    + apply all_fwd_existsb; [reflexivity | apply fgets_loop_all_fwd].
  - cbn [app handles_ok negb andb]. now rewrite Hspawn.
Qed.

Lemma handles_ok_device w v4l2CtlPath device n rest :
  handles_ok w n false (device_events w v4l2CtlPath device n ++ rest)%list =
    handles_ok w (S (S n)) false rest.
Proof.
  unfold device_events, banner. rewrite <- !app_assoc.
  cbn [app handles_ok]. rewrite <- !app_assoc.
  rewrite handles_ok_query. cbn [app handles_ok]. rewrite <- !app_assoc.
  rewrite handles_ok_query. reflexivity.
Qed.

Lemma handles_ok_report w v4l2CtlPath devices n rest :
  handles_ok w n false (report_events w v4l2CtlPath devices n ++ rest)%list =
    handles_ok w (2 * List.length devices + n) false rest.
Proof.
  revert n. induction devices as [|dev more IH]; intros n; [reflexivity|].
  cbn [report_events]. rewrite <- app_assoc, handles_ok_device, IH.
  f_equal. cbn [List.length]. lia.
Qed.

(** X5: in every run each stream that [popen] opens is closed by one
    [pclose] before the next [popen] and before the run ends; [pclose]
    is never called for a [popen] that failed, and never twice. *)
Theorem every_stream_is_closed (w : World) :
  handles_ok w 0 false (trace (run w)) = true.
Proof.
  rewrite run_eq.
  assert (Hloc : existsb is_handle_call (locate_events w) = false)
    by now apply locate_events_quiet.
  assert (Hintro : existsb is_handle_call intro_events = false)
    by now apply intro_events_quiet.
  assert (Hdisc : existsb is_handle_call (discovery_events w) = false).
  { unfold discovery_events. split_trace. now rewrite scan_events_quiet. }
  destruct (located w) as [v4l2CtlPath|]; unfold trace.
  - destruct (glob_matched w).
    + destruct (device_set w) as [|dev more]; cbn [fst snd];
        rewrite !handles_ok_skip by assumption.
      * reflexivity.
      * now rewrite handles_ok_report.
    + cbn [fst snd]. now rewrite !handles_ok_skip by assumption.
  - cbn [fst snd]. now rewrite handles_ok_skip by assumption.
Qed.

(** ** What the run writes to the two streams *)

(** What reaches standard output from the child of one query. *)
Definition shown (out : string) : string :=
  stdout_of (fst (fgets_loop out false)).

(** The text of one report section: empty when [popen] fails. *)
Definition section_text (w : World) (n : nat) (cmd : string) : string :=
  match popen w n cmd with
  | None => ""
  | Some child =>
      if nonempty (child_stdout child) then shown (child_stdout child)
      else no_output_marker
  end.

Fixpoint report_text (w : World) (v4l2CtlPath : string)
  (devices : list string) (n : nat) : string :=
  match devices with
  | [] => ""
  | dev :: more =>
      rule ++ nl ++ banner_line dev ++ rule ++ nl ++ nl
      ++ label_all ++ section_text w n (cmd_all v4l2CtlPath dev) ++ nl
      ++ label_formats
      ++ section_text w (S n) (cmd_formats v4l2CtlPath dev) ++ nl
      ++ report_text w v4l2CtlPath more (S (S n))
  end.

(** The line one query leaves on standard error, if any. *)
Definition query_error (w : World) (n : nat) (cmd : string) : string :=
  match popen w n cmd with
  | None => spawn_failure_line cmd
  | Some child =>
      if Z.eqb (pclose_ret child) (-1)
      then close_failure_line (pclose_strerror child)
      else ""
  end.

Fixpoint errors_from (w : World) (cmds : list string) (n : nat) : string :=
  match cmds with
  | [] => ""
  | cmd :: more => query_error w n cmd ++ errors_from w more (S n)
  end.

Lemma shown_empty : shown "" = "".
Proof. reflexivity. Qed.

Lemma stdout_of_query_text w cmd n :
  stdout_of (trace (runCommandAndPrint w cmd n)) = section_text w n cmd.
Proof.
  rewrite stdout_of_query. unfold section_text, output_of, shown.
  destruct (popen w n cmd) as [child|]; cbn [option_map]; [|reflexivity].
  destruct (child_stdout child) as [|c out] eqn:Hout.
  - reflexivity.
  - unfold nonempty. cbn [String.eqb negb]. apply append_nil_r.
Qed.

Lemma stderr_of_query w cmd n :
  stderr_of (trace (runCommandAndPrint w cmd n)) = query_error w n cmd.
Proof.
  rewrite runCommandAndPrint_eq. unfold query_error.
  destruct (popen w n cmd) as [child|]; unfold trace; cbn [fst snd].
  - cbn [stderr_of]. unfold section_events. rewrite !stderr_of_app.
    rewrite (stderr_of_silent (fst _)).
    + destruct (nonempty (child_stdout child)),
        (Z.eqb (pclose_ret child) (-1)); cbn [stderr_of app];
        rewrite ?append_nil_r; reflexivity.
    + apply all_fwd_existsb; [reflexivity | apply fgets_loop_all_fwd].
  - cbn [stderr_of]. apply append_nil_r.
Qed.

Lemma stdout_of_report_text w v4l2CtlPath devices n :
  stdout_of (report_events w v4l2CtlPath devices n) =
    report_text w v4l2CtlPath devices n.
Proof.
  revert n. induction devices as [|dev more IH]; intros n; [reflexivity|].
  cbn [report_events report_text]. rewrite stdout_of_app, IH.
  unfold device_events, banner, banner_line.
  cbn [app stdout_of]. rewrite !stdout_of_app. cbn [stdout_of].
  rewrite !stdout_of_app. cbn [stdout_of].
  rewrite !stdout_of_query_text, !append_assoc, ?append_nil_r.
  reflexivity.
Qed.

Lemma stderr_of_report w v4l2CtlPath devices n :
  stderr_of (report_events w v4l2CtlPath devices n) =
    errors_from w (planned_cmds v4l2CtlPath devices) n.
Proof.
  revert n. induction devices as [|dev more IH]; intros n; [reflexivity|].
  cbn [report_events planned_cmds flat_map app errors_from].
  rewrite stderr_of_app. fold (planned_cmds v4l2CtlPath more). rewrite IH.
  unfold device_events, banner.
  cbn [app stderr_of]. rewrite !stderr_of_app. cbn [stderr_of].
  rewrite !stderr_of_app. cbn [stderr_of].
  rewrite !stderr_of_query, !append_assoc, ?append_nil_r. reflexivity.
Qed.

Lemma stdout_of_scan w pathv :
  stdout_of (scan_events w pathv) =
    String.concat "" (map listing_line (filter (is_char_device w) pathv)).
Proof.
  induction pathv as [|path more IH]; [reflexivity|].
  cbn [scan_events filter stdout_of]. rewrite stdout_of_app, IH.
  destruct (is_char_device w path); [|reflexivity].
  cbn [stdout_of map]. rewrite append_nil_r.
  destruct (map listing_line (filter (is_char_device w) more)) eqn:E;
    cbn [String.concat]; [apply append_nil_r | reflexivity].
Qed.

Section Streams.

Variable w : World.

(** X6: the bytes of standard output.  Nothing when no backend was
    located; otherwise the introduction and then either the no-match
    message, or the listing of the device set followed, for an empty set,
    by the no-character-device message and, for a non-empty one, by one
    block per device in discovery order: rule, [DEVICE:] line, rule,
    blank line, first label, first section, blank line, second label,
    second section, blank line.  The section of a query whose [popen]
    failed is empty: it holds neither text nor the [(no output)] line. *)
Theorem stdout_layout :
  stdout_of (trace (run w)) =
    match located w with
    | None => ""
    | Some v4l2CtlPath =>
        intro_banner
        ++ (if glob_matched w then
              "Discovered video devices:" ++ nl
              ++ String.concat "" (map listing_line (device_set w)) ++ nl
              ++ match device_set w with
                 | [] => no_char_device_msg
                 | _ :: _ => report_text w v4l2CtlPath (device_set w) 0
                 end
            else no_glob_match_msg)
    end.
Proof.
  assert (Hquiet : stdout_of (locate_events w) = "").
  { apply stdout_of_silent. now apply locate_events_quiet. }
  assert (Hdisc : glob_matched w = true ->
                  stdout_of (discovery_events w) =
                    "Discovered video devices:" ++ nl
                    ++ String.concat "" (map listing_line (device_set w)) ++ nl).
  { intros Hglob. unfold discovery_events. cbn [stdout_of].
    rewrite stdout_of_app, stdout_of_scan, device_set_eq, Hglob.
    cbn [stdout_of]. now rewrite !append_assoc, ?append_nil_r. }
  rewrite run_eq.
  destruct (located w) as [v4l2CtlPath|]; unfold trace.
  - destruct (glob_matched w) eqn:Hglob.
    + specialize (Hdisc eq_refl).
      destruct (device_set w) as [|dev more] eqn:Hdev; cbn [fst snd];
        rewrite !stdout_of_app, Hquiet, Hdisc, stdout_of_intro.
      * cbn [stdout_of]. now rewrite !append_assoc, ?append_nil_r.
      * rewrite stdout_of_report_text. cbn [stdout_of].
        now rewrite !append_assoc, ?append_nil_r.
    + cbn [fst snd]. rewrite !stdout_of_app, Hquiet, stdout_of_intro.
      cbn [stdout_of]. now rewrite append_nil_r.
  - cbn [fst snd]. now rewrite stdout_of_app, Hquiet.
Qed.

(** X7: what the program itself writes to [std::cerr].  The
    missing-backend diagnostic when no backend was located; otherwise,
    query by query in the order the queries are made, the failure line of
    a [popen] that failed, the line with the [strerror] text of a
    [pclose] that returned -1, and nothing for a query that ran.  So the
    program writes nothing to [std::cerr] exactly when the backend was
    located and every query could be started and closed.  (What a
    backend writes to the standard error it inherits is not covered.) *)
Theorem stderr_layout :
  stderr_of (trace (run w)) =
    match located w with
    | None => not_found_diag
    | Some v4l2CtlPath =>
        errors_from w (planned_cmds v4l2CtlPath (device_set w)) 0
    end
  /\ (stderr_of (trace (run w)) = "" <->
      exists v4l2CtlPath,
        located w = Some v4l2CtlPath
        /\ forall i cmd,
             nth_error (planned_cmds v4l2CtlPath (device_set w)) i = Some cmd ->
             exists child,
               popen w i cmd = Some child /\ pclose_ret child <> (-1)%Z).
Proof.
  assert (Hquiet : stderr_of (locate_events w) = "").
  { apply stderr_of_silent. now apply locate_events_quiet. }
  assert (Hintro : stderr_of intro_events = "").
  { apply stderr_of_silent. now apply intro_events_quiet. }
  assert (Hdisc : stderr_of (discovery_events w) = "").
  { apply stderr_of_silent. unfold discovery_events. split_trace.
    now rewrite scan_events_quiet. }
  assert (Hlayout :
            stderr_of (trace (run w)) =
              match located w with
              | None => not_found_diag
              | Some v4l2CtlPath =>
                  errors_from w (planned_cmds v4l2CtlPath (device_set w)) 0
              end).
  { rewrite run_eq.
    destruct (located w) as [v4l2CtlPath|]; unfold trace.
    - destruct (glob_matched w) eqn:Hglob.
      + destruct (device_set w) as [|dev more] eqn:Hdev; cbn [fst snd];
          rewrite !stderr_of_app, Hquiet, Hintro, Hdisc.
        * reflexivity.
        * rewrite stderr_of_report. cbn [stderr_of].
          now rewrite append_nil_r.
      + cbn [fst snd]. rewrite device_set_eq, Hglob.
        now rewrite !stderr_of_app, Hquiet, Hintro.
    - cbn [fst snd]. rewrite stderr_of_app, Hquiet. cbn [stderr_of].
      apply append_nil_r. }
  split; [exact Hlayout|]. rewrite Hlayout.
  assert (Hclean : forall cmds n,
             errors_from w cmds n = "" <->
             forall i cmd,
               nth_error cmds i = Some cmd ->
               exists child,
                 popen w (n + i) cmd = Some child
                 /\ pclose_ret child <> (-1)%Z).
  { induction cmds as [|c more IH]; intros n.
    - split; [|reflexivity]. intros _ [|i] cmd H; discriminate.
    - cbn [errors_from]. split.
      + intros H.
        assert (Hq : query_error w n c = "" /\ errors_from w more (S n) = "").
        { destruct (query_error w n c); [now split | discriminate]. }
        destruct Hq as [Hq Hmore]. intros [|i] cmd Hnth; cbn in Hnth.
        * injection Hnth as <-. rewrite Nat.add_0_r.
          unfold query_error in Hq.
          destruct (popen w n c) as [child|]; [|discriminate].
          exists child. split; [reflexivity|].
          destruct (Z.eqb_spec (pclose_ret child) (-1)); [discriminate|].
          assumption.
        * replace (n + S i) with (S n + i) by lia.
          now apply (proj1 (IH (S n)) Hmore).
      + intros H.
        destruct (H 0 c eq_refl) as (child & Hspawn & Hret).
        rewrite Nat.add_0_r in Hspawn. unfold query_error. rewrite Hspawn.
        destruct (Z.eqb_spec (pclose_ret child) (-1)); [contradiction|].
        cbn [append]. apply IH. intros i cmd Hnth.
        replace (S n + i) with (n + S i) by lia. now apply H. }
  destruct (located w) as [v4l2CtlPath|].
  - rewrite Hclean. split.
    + intros H. exists v4l2CtlPath. split; [reflexivity | exact H].
    + intros (p & [= <-] & H). exact H.
  - split; [discriminate|]. intros (p & H & _). discriminate.
Qed.

End Streams.

(** ** The probes of the locator *)

Lemma probed_first (w : World) (candidates : list string) :
  match find (executable w) candidates with
  | Some c =>
      exists before after,
        candidates = (before ++ c :: after)%list
        /\ probed w candidates = (before ++ [c])%list
        /\ (forall x, In x before -> executable w x = false)
        /\ executable w c = true
  | None => probed w candidates = candidates
  end.
Proof.
  induction candidates as [|c more IH]; [reflexivity|].
  cbn [find probed]. destruct (executable w c) eqn:Hc.
  - exists [], more. repeat split; auto. intros x [].
  - destruct (find (executable w) more) as [hit|].
    + destruct IH as (before & after & -> & Hprobed & Hbefore & Hhit).
      exists (c :: before), after. rewrite Hprobed.
      repeat split; auto. intros x [<-|Hx]; auto.
    + now rewrite IH.
Qed.

(** X8: the locator reads [PATH] and then calls [access] on the
    candidates of the search-path entries in order; it stops at the first
    one that is executable, so no later entry is probed, and probes all
    of them when none is.  With [PATH] unset or empty it calls [access]
    on nothing.  It starts no process. *)
Theorem locator_probes_in_order (w : World) (n : nat) :
  spawned (findV4l2Ctl w n) = n
  /\ match result (findV4l2Ctl w n) with
     | Some c =>
         exists before after,
           path_candidates w = (before ++ c :: after)%list
           /\ trace (findV4l2Ctl w n) =
                EGetenv "PATH" :: map EAccess (before ++ [c])
           /\ (forall x, In x before -> executable w x = false)
           /\ executable w c = true
     | None =>
         trace (findV4l2Ctl w n) =
           EGetenv "PATH" :: map EAccess (path_candidates w)
     end
  /\ (getenv w "PATH" = None \/ getenv w "PATH" = Some "" ->
      trace (findV4l2Ctl w n) = [EGetenv "PATH"]).
Proof.
  rewrite findV4l2Ctl_eq. unfold spawned, result, trace. cbn [fst snd].
  split; [reflexivity|]. split.
  - pose proof (probed_first w (path_candidates w)) as H.
    destruct (find (executable w) (path_candidates w)) as [c|].
    + destruct H as (before & after & Hall & Hprobed & Hbefore & Hc).
      exists before, after. now rewrite Hprobed.
    + now rewrite H.
  - unfold path_candidates. intros [-> | ->]; reflexivity.
Qed.

(** ** The pieces in which output is forwarded *)

(** A newline, if any, is the last byte. *)
Fixpoint newline_only_last (s : string) : bool :=
  match s with
  | "" => true
  | String c rest =>
      if Ascii.eqb c LF then String.eqb rest "" else newline_only_last rest
  end.

Definition chunk_ok (e : Event) : bool :=
  match e with
  | Fwd line =>
      Nat.leb (String.length line) (sizeof_line - 1) && newline_only_last line
  | _ => true
  end.

Lemma fgets_fill_length room stream :
  String.length (fst (fgets_fill room stream)) <= room.
Proof.
  revert stream. induction room as [|room IH]; intros [|c s]; cbn; try lia.
  destruct (Ascii.eqb c LF); cbn; [lia|].
  specialize (IH s). destruct (fgets_fill room s). cbn in *. lia.
Qed.

Lemma fgets_fill_newline room stream :
  newline_only_last (fst (fgets_fill room stream)) = true.
Proof.
  revert stream. induction room as [|room IH]; intros [|c s]; cbn;
    try reflexivity.
  destruct (Ascii.eqb c LF) eqn:Hc; cbn.
  - now rewrite Hc.
  - specialize (IH s). destruct (fgets_fill room s). cbn in *.
    now rewrite Hc.
Qed.

Lemma c_str_length buf : String.length (c_str buf) <= String.length buf.
Proof.
  induction buf as [|c rest IH]; cbn; [lia|].
  destruct (Ascii.eqb c NUL); cbn; lia.
Qed.

Lemma c_str_newline buf :
  newline_only_last buf = true -> newline_only_last (c_str buf) = true.
Proof.
  induction buf as [|c rest IH]; cbn; [reflexivity|].
  destruct (Ascii.eqb c NUL); [reflexivity|]. cbn.
  destruct (Ascii.eqb c LF).
  - intros H. apply String.eqb_eq in H. now subst rest.
  - exact IH.
Qed.

Lemma fgets_chunk_ok size stream line rest :
  fgets size stream = Some (line, rest) ->
  String.length (c_str line) <= size - 1
  /\ newline_only_last (c_str line) = true.
Proof.
  intros H. apply fgets_some in H.
  pose proof (fgets_fill_length (size - 1) stream) as Hlen.
  pose proof (fgets_fill_newline (size - 1) stream) as Hnl.
  rewrite H in Hlen, Hnl. cbn [fst] in Hlen, Hnl.
  pose proof (c_str_length line). split; [lia | now apply c_str_newline].
Qed.

Lemma fgets_loop_chunks stream printedAny :
  forallb chunk_ok (fst (fgets_loop stream printedAny)) = true.
Proof.
  funelim (fgets_loop stream printedAny).
  - destruct (fgets_loop rest true) as [t b]. cbn [fst forallb] in *.
    rewrite H. destruct (fgets_chunk_ok _ _ _ _ e) as [Hlen Hnl].
    unfold chunk_ok. rewrite Hnl.
    apply Nat.leb_le in Hlen. now rewrite Hlen.
  - reflexivity.
Qed.

Lemma no_fwd_chunks t : existsb is_fwd t = false -> forallb chunk_ok t = true.
Proof.
  induction t as [|e t IH]; [reflexivity|].
  cbn [existsb forallb]. intros H. apply orb_false_elim in H.
  destruct H as [He H]. rewrite (IH H).
  destruct e; try reflexivity; discriminate.
Qed.

Lemma query_chunks w cmd n :
  forallb chunk_ok (trace (runCommandAndPrint w cmd n)) = true.
Proof.
  rewrite runCommandAndPrint_eq.
  destruct (popen w n cmd) as [child|]; unfold trace; cbn [fst snd];
    [|reflexivity].
  cbn [forallb chunk_ok andb]. unfold section_events.
  rewrite !forallb_app, fgets_loop_chunks.
  destruct (nonempty (child_stdout child)), (Z.eqb (pclose_ret child) (-1));
    reflexivity.
Qed.

Lemma report_chunks w v4l2CtlPath devices n :
  forallb chunk_ok (report_events w v4l2CtlPath devices n) = true.
Proof.
  revert n. induction devices as [|dev more IH]; intros n; [reflexivity|].
  cbn [report_events]. rewrite forallb_app, IH.
  unfold device_events, banner. cbn [app forallb chunk_ok andb].
  rewrite !forallb_app. cbn [forallb chunk_ok andb].
  rewrite !forallb_app. now rewrite !query_chunks.
Qed.

(** X9: whatever the backends write, each piece of their output that the
    run copies to standard output is at most 1023 bytes long, the room
    [fgets] has in the 1024-byte buffer, and holds a newline only as its
    last byte: a longer line is forwarded in several pieces. *)
Theorem forwarded_pieces_fit_the_buffer (w : World) :
  forallb chunk_ok (trace (run w)) = true.
Proof.
  rewrite run_eq.
  assert (Hloc : forallb chunk_ok (locate_events w) = true).
  { apply no_fwd_chunks. now apply locate_events_quiet. }
  assert (Hintro : forallb chunk_ok intro_events = true).
  { apply no_fwd_chunks. now apply intro_events_quiet. }
  assert (Hdisc : forallb chunk_ok (discovery_events w) = true).
  { apply no_fwd_chunks. unfold discovery_events. split_trace.
    now rewrite scan_events_quiet. }
  destruct (located w) as [v4l2CtlPath|]; unfold trace.
  - destruct (glob_matched w).
    + destruct (device_set w) as [|dev more]; cbn [fst snd];
        rewrite !forallb_app, Hloc, Hintro, Hdisc; [reflexivity|].
      now rewrite report_chunks.
    + cbn [fst snd]. now rewrite !forallb_app, Hloc, Hintro.
  - cbn [fst snd]. now rewrite forallb_app, Hloc.
Qed.

(** A line of text that ends with its only newline and holds no NUL. *)
Fixpoint text_line (l : string) : bool :=
  match l with
  | "" => false
  | String c rest =>
      if Ascii.eqb c LF then String.eqb rest ""
      else negb (Ascii.eqb c NUL) && text_line rest
  end.

Definition fits_buffer (l : string) : bool :=
  text_line l && Nat.leb (String.length l) (sizeof_line - 1).

Fixpoint join (pieces : list string) : string :=
  match pieces with
  | [] => ""
  | piece :: more => piece ++ join more
  end.

Lemma text_line_no_nul l : text_line l = true -> has_char NUL l = false.
Proof.
  induction l as [|c rest IH]; [discriminate|]. cbn.
  destruct (Ascii.eqb c LF) eqn:Hlf.
  - intros H. apply String.eqb_eq in H. subst rest.
    apply Ascii.eqb_eq in Hlf. subst c. reflexivity.
  - intros H. apply andb_prop in H. destruct H as [Hc Hrest].
    apply negb_true_iff in Hc. rewrite Hc. now apply IH.
Qed.

Lemma fgets_fill_line room line rest :
  text_line line = true ->
  String.length line <= room ->
  fgets_fill room (line ++ rest) = (line, rest).
Proof.
  revert room. induction line as [|c l IH]; intros room; [discriminate|].
  cbn [text_line String.length append]. intros Htext Hlen.
  destruct room as [|room]; [lia|]. cbn [fgets_fill].
  destruct (Ascii.eqb c LF).
  - apply String.eqb_eq in Htext. now subst l.
  - apply andb_prop in Htext. destruct Htext as [_ Htext].
    rewrite IH by (auto; lia). reflexivity.
Qed.

Lemma fgets_line size line rest :
  text_line line = true ->
  String.length line <= size - 1 ->
  fgets size (line ++ rest) = Some (line, rest).
Proof.
  intros Htext Hlen. pose proof (fgets_fill_line _ _ rest Htext Hlen) as H.
  destruct line as [|c l]; [discriminate|].
  unfold fgets. cbn [append] in *. now rewrite H.
Qed.

Lemma fgets_loop_lines lines printedAny :
  forallb fits_buffer lines = true ->
  fst (fgets_loop (join lines) printedAny) = map Fwd lines.
Proof.
  revert printedAny. induction lines as [|line more IH]; intros printedAny.
  - reflexivity.
  - cbn [forallb join map]. intros H. apply andb_prop in H.
    destruct H as [Hline Hmore]. unfold fits_buffer in Hline.
    apply andb_prop in Hline. destruct Hline as [Htext Hlen].
    apply Nat.leb_le in Hlen.
    rewrite (fgets_loop_step _ _ _ _ (fgets_line _ _ (join more) Htext Hlen)).
    cbn [fst]. rewrite (IH true Hmore).
    now rewrite (c_str_text _ (text_line_no_nul _ Htext)).
Qed.

(** X10: when the output of a backend is a sequence of text lines, each
    ended by its newline, free of NUL and at most 1023 bytes long with
    the newline, the query copies it to standard output line by line:
    one write per line, in order, and nothing else from the child. *)
Theorem forwards_line_by_line
  (w : World) (cmd : string) (n : nat) (child : Child) (lines : list string) :
  popen w n cmd = Some child ->
  child_stdout child = join lines ->
  forallb fits_buffer lines = true ->
  filter is_fwd (trace (runCommandAndPrint w cmd n)) = map Fwd lines.
Proof.
  intros Hspawn Hout Hlines. rewrite runCommandAndPrint_eq, Hspawn.
  unfold trace. cbn [fst snd filter is_fwd]. unfold section_events.
  rewrite !filter_app, Hout, (fgets_loop_lines _ _ Hlines).
  assert (Hall : filter is_fwd (map Fwd lines) = map Fwd lines).
  { clear. induction lines as [|l more IH]; [reflexivity|].
    cbn [map filter is_fwd]. now rewrite IH. }
  rewrite Hall.
  destruct (nonempty (join lines)), (Z.eqb (pclose_ret child) (-1));
    cbn [filter is_fwd app]; now rewrite app_nil_r.
Qed.

(** ** The command lines *)

Fixpoint last_char (s : string) : option ascii :=
  match s with
  | "" => None
  | String c rest =>
      match rest with
      | "" => Some c
      | _ => last_char rest
      end
  end.

Lemma last_char_app s t : t <> "" -> last_char (s ++ t) = last_char t.
Proof.
  intros Ht. induction s as [|c s IH]; [reflexivity|].
  cbn [append last_char]. rewrite IH.
  destruct (s ++ t) eqn:E; [|reflexivity].
  destruct s; [cbn in E; congruence | discriminate].
Qed.

Lemma cmd_all_inj v4l2CtlPath a b :
  cmd_all v4l2CtlPath a = cmd_all v4l2CtlPath b -> a = b.
Proof.
  unfold cmd_all. intros H.
  do 5 apply append_cancel_l in H. now apply append_cancel_r in H.
Qed.

Lemma cmd_formats_inj v4l2CtlPath a b :
  cmd_formats v4l2CtlPath a = cmd_formats v4l2CtlPath b -> a = b.
Proof.
  unfold cmd_formats. intros H.
  do 5 apply append_cancel_l in H. now apply append_cancel_r in H.
Qed.

Lemma cmd_all_not_formats v4l2CtlPath a b :
  cmd_all v4l2CtlPath a <> cmd_formats v4l2CtlPath b.
Proof.
  unfold cmd_all, cmd_formats. intros H.
  do 5 apply append_cancel_l in H.
  apply (f_equal last_char) in H.
  rewrite !last_char_app in H by discriminate. discriminate.
Qed.

Lemma planned_cmds_NoDup v4l2CtlPath devices :
  NoDup devices -> NoDup (planned_cmds v4l2CtlPath devices).
Proof.
  induction devices as [|dev more IH]; intros Hnodup; [constructor|].
  inversion Hnodup as [|? ? Hnotin Hmore]; subst.
  cbn [planned_cmds flat_map app]. fold (planned_cmds v4l2CtlPath more).
  constructor; [|constructor; [|now apply IH]].
  - intros [H|H].
    + symmetry in H. now apply cmd_all_not_formats in H.
    + unfold planned_cmds in H. apply in_flat_map in H.
      destruct H as (d & Hd & [H|[H|[]]]).
      * apply cmd_all_inj in H. now subst d.
      * symmetry in H. now apply cmd_all_not_formats in H.
  - intros H. unfold planned_cmds in H. apply in_flat_map in H.
    destruct H as (d & Hd & [H|[H|[]]]).
    + now apply cmd_all_not_formats in H.
    + apply cmd_formats_inj in H. now subst d.
Qed.

(** X11: when [glob] lists no path twice, no command line is handed to
    [popen] twice in the run: the two queries of a device differ and
    different devices give different command lines. *)
Theorem no_query_is_repeated (w : World) (v4l2CtlPath : string) :
  located w = Some v4l2CtlPath ->
  NoDup (gl_pathv (glob w video_pattern)) ->
  NoDup (popen_cmds (trace (run w))).
Proof.
  intros Hloc Hnodup. rewrite (popen_cmds_run w _ Hloc).
  apply planned_cmds_NoDup. rewrite device_set_eq.
  destruct (glob_matched w); [|constructor].
  now apply NoDup_filter.
Qed.

(** ** The further properties on the sample hosts *)

Lemma discovery_precedes_reporting_two_nodes :
  located Samples.two_nodes = Some "/usr/bin/v4l2-ctl"
  /\ filter is_scan (trace (run Samples.two_nodes)) =
       EGlob video_pattern
       :: (if glob_matched Samples.two_nodes
           then map EStat (gl_pathv (glob Samples.two_nodes video_pattern))
           else []).
Proof.
  assert (H : located Samples.two_nodes = Some "/usr/bin/v4l2-ctl")
    by (vm_compute; reflexivity).
  destruct (discovery_precedes_reporting Samples.two_nodes _ H) as (Hscan & _).
  exact (conj H Hscan).
Defined.

Lemma forwards_line_by_line_two_nodes :
  let cmd := cmd_all "/usr/bin/v4l2-ctl" "/dev/video0" in
  let lines := ["Driver name: uvcvideo" ++ nl] in
  popen Samples.two_nodes 0 cmd = Some (Samples.text_child (join lines))
  /\ forallb fits_buffer lines = true
  /\ filter is_fwd (trace (runCommandAndPrint Samples.two_nodes cmd 0)) =
       map Fwd lines.
Proof.
  cbv zeta.
  assert (Hlines : forallb fits_buffer ["Driver name: uvcvideo" ++ nl] = true)
    by (vm_compute; reflexivity).
  pose proof (forwards_line_by_line Samples.two_nodes
                (cmd_all "/usr/bin/v4l2-ctl" "/dev/video0") 0
                (Samples.text_child (join ["Driver name: uvcvideo" ++ nl]))
                ["Driver name: uvcvideo" ++ nl] eq_refl eq_refl Hlines) as H.
  exact (conj eq_refl (conj Hlines H)).
Defined.

Lemma no_query_is_repeated_two_nodes :
  located Samples.two_nodes = Some "/usr/bin/v4l2-ctl"
  /\ NoDup (gl_pathv (glob Samples.two_nodes video_pattern))
  /\ NoDup (popen_cmds (trace (run Samples.two_nodes))).
Proof.
  assert (H : located Samples.two_nodes = Some "/usr/bin/v4l2-ctl")
    by (vm_compute; reflexivity).
  assert (Hnodup : NoDup (gl_pathv (glob Samples.two_nodes video_pattern))).
  { cbn. constructor.
    - intros [Heq|[]]. discriminate.
    - constructor; [intros [] | constructor]. }
  exact (conj H (conj Hnodup (no_query_is_repeated _ _ H Hnodup))).
Defined.

(** ** The pieces [fgets] reads *)

Definition ends_with_newline (s : string) : bool :=
  match last_char s with
  | Some c => Ascii.eqb c LF
  | None => false
  end.

(** The way the loop of [runCommandAndPrint] cuts a stream into pieces:
    each piece is non-empty, at most 1023 bytes long and holds a newline
    only as its last byte, and each piece but the last either ends with a
    newline or fills the buffer.  A stream has one such cutting. *)
Fixpoint pieces_ok (pieces : list string) : bool :=
  match pieces with
  | [] => true
  | piece :: more =>
      nonempty piece
      && Nat.leb (String.length piece) (sizeof_line - 1)
      && newline_only_last piece
      && match more with
         | [] => true
         | _ :: _ =>
             ends_with_newline piece
             || Nat.eqb (String.length piece) (sizeof_line - 1)
         end
      && pieces_ok more
  end.

Definition forward (piece : string) : Event := Fwd (c_str piece).

Lemma ends_with_newline_cons c s :
  ends_with_newline s = true -> ends_with_newline (String c s) = true.
Proof.
  unfold ends_with_newline. destruct s as [|d s]; [discriminate|].
  cbn [last_char]. trivial.
Qed.

Lemma fgets_fill_stop room stream line rest :
  fgets_fill room stream = (line, rest) ->
  rest = "" \/ ends_with_newline line = true \/ String.length line = room.
Proof.
  revert stream line rest.
  induction room as [|room IH]; intros [|c s] line rest; cbn [fgets_fill].
  - intros [= <- <-]. now left.
  - intros [= <- <-]. right. now right.
  - intros [= <- <-]. now left.
  - destruct (Ascii.eqb c LF) eqn:Hc.
    + intros [= <- <-]. right. left.
      unfold ends_with_newline. cbn [last_char]. exact Hc.
    + destruct (fgets_fill room s) as [l r] eqn:E.
      intros [= <- <-]. destruct (IH _ _ _ E) as [H|[H|H]].
      * now left.
      * right. left. now apply ends_with_newline_cons.
      * right. right. cbn [String.length]. now rewrite H.
Qed.

Lemma fgets_fill_nonempty room c s :
  fst (fgets_fill (S room) (String c s)) <> "".
Proof.
  cbn [fgets_fill]. destruct (Ascii.eqb c LF); [discriminate|].
  destruct (fgets_fill room s). discriminate.
Qed.

Lemma fgets_piece room stream line rest :
  fgets (S (S room)) stream = Some (line, rest) ->
  line ++ rest = stream
  /\ nonempty line = true
  /\ String.length line <= S room
  /\ newline_only_last line = true
  /\ (rest = "" \/ ends_with_newline line = true
      \/ String.length line = S room).
Proof.
  intros H.
  assert (Hfill : fgets_fill (S room) stream = (line, rest)).
  { apply fgets_some in H. exact H. }
  split; [now apply fgets_fill_app in Hfill|]. split; [|split; [|split]].
  - destruct stream as [|c s]; [discriminate|].
    pose proof (fgets_fill_nonempty room c s) as Hne.
    rewrite Hfill in Hne. cbn [fst] in Hne.
    destruct line; [congruence | reflexivity].
  - pose proof (fgets_fill_length (S room) stream) as Hlen.
    now rewrite Hfill in Hlen.
  - pose proof (fgets_fill_newline (S room) stream) as Hnl.
    now rewrite Hfill in Hnl.
  - now apply fgets_fill_stop in Hfill.
Qed.

Lemma sizeof_line_room : sizeof_line = S (S (sizeof_line - 2)).
Proof. reflexivity. Qed.

(** The loop forwards the pieces of the stream, each as a C string. *)
Lemma fgets_loop_pieces stream printedAny :
  exists pieces,
    join pieces = stream
    /\ pieces_ok pieces = true
    /\ fst (fgets_loop stream printedAny) = map forward pieces.
Proof.
  funelim (fgets_loop stream printedAny).
  - destruct H as (pieces & Hjoin & Hok & Hfwd).
    destruct (fgets_loop rest true) as [t b]. cbn [fst] in *.
    pose proof e as Hread. rewrite sizeof_line_room in Hread.
    apply fgets_piece in Hread.
    destruct Hread as (Hcat & Hne & Hlen & Hnl & Hstop).
    exists (line :: pieces). split; [|split].
    + cbn [join]. now rewrite Hjoin.
    + cbn [pieces_ok]. rewrite Hne, Hnl, Hok.
      assert (Hroom : sizeof_line - 1 = S (sizeof_line - 2)) by reflexivity.
      rewrite Hroom. apply Nat.leb_le in Hlen. rewrite Hlen. cbn [andb].
      destruct pieces as [|piece more]; [reflexivity|].
      rewrite andb_true_r.
      destruct Hstop as [Hrest|[Hend|Hfull]].
      * rewrite Hrest in Hjoin. cbn [join pieces_ok] in Hjoin, Hok.
        destruct piece; [discriminate Hok | discriminate Hjoin].
      * now rewrite Hend.
      * apply Nat.eqb_eq in Hfull. rewrite Hfull. apply orb_true_r.
    + cbn [map]. unfold forward at 1. now rewrite Hfwd.
  - exists []. destruct stream; [now repeat split | discriminate].
Qed.

Lemma filter_fwd_forward pieces :
  filter is_fwd (map forward pieces) = map forward pieces.
Proof.
  induction pieces as [|piece more IH]; [reflexivity|].
  cbn [map filter forward is_fwd]. now rewrite IH.
Qed.

Lemma stdout_of_forward pieces :
  stdout_of (map forward pieces) = join (map c_str pieces).
Proof.
  induction pieces as [|piece more IH]; [reflexivity|].
  cbn [map stdout_of forward join]. now rewrite IH.
Qed.

Lemma join_empty pieces : pieces_ok pieces = true -> join pieces = "" -> pieces = [].
Proof.
  destruct pieces as [|piece more]; [reflexivity|].
  cbn [pieces_ok join]. intros Hok Hjoin.
  destruct piece; [discriminate Hok | discriminate Hjoin].
Qed.

Lemma c_str_cut before after :
  has_char NUL before = false -> c_str (before ++ String NUL after) = before.
Proof.
  induction before as [|c before IH]; [reflexivity|].
  cbn [has_char append c_str]. intros H. apply orb_false_elim in H.
  destruct H as [Hc H]. rewrite Hc. now rewrite IH.
Qed.

Section Pieces.

Variable w : World.

(** What one query does when its child was started, piece by piece. *)
Lemma runCommandAndPrint_pieces cmd n child :
  popen w n cmd = Some child ->
  exists pieces,
    join pieces = child_stdout child
    /\ pieces_ok pieces = true
    /\ trace (runCommandAndPrint w cmd n) =
         (EPopen cmd
          :: map forward pieces
          ++ (if nonempty (child_stdout child) then []
              else [Cout no_output_marker])
          ++ EPclose
          :: (if Z.eqb (pclose_ret child) (-1)
              then [Cerr (close_failure_line (pclose_strerror child))]
              else []))%list.
Proof.
  intros Hspawn.
  destruct (fgets_loop_pieces (child_stdout child) false)
    as (pieces & Hjoin & Hok & Hfwd).
  exists pieces. split; [exact Hjoin|]. split; [exact Hok|].
  rewrite runCommandAndPrint_eq, Hspawn. unfold trace. cbn [fst snd].
  unfold section_events. now rewrite Hfwd.
Qed.

(** C5, as the code has it: a backend that writes nothing leaves exactly
    the [(no output)] line.  Otherwise its output is forwarded in the
    pieces [fgets] reads, a line up to and with its newline or 1023
    bytes of a longer line, in order and each written as a C string, so
    up to its first NUL byte: a piece without NUL is forwarded as it is,
    whatever the other pieces hold, and an output without NUL reaches
    standard output whole. *)
Theorem section_forwards_each_piece (cmd : string) (n : nat) (child : Child) :
  popen w n cmd = Some child ->
  exists pieces,
    join pieces = child_stdout child
    /\ pieces_ok pieces = true
    /\ filter is_fwd (trace (runCommandAndPrint w cmd n)) = map forward pieces
    /\ stdout_of (trace (runCommandAndPrint w cmd n)) =
         (if nonempty (child_stdout child) then join (map c_str pieces)
          else no_output_marker)
    /\ (forall piece,
          In piece pieces -> has_char NUL piece = false ->
          In (Fwd piece) (trace (runCommandAndPrint w cmd n)))
    /\ (forall before after,
          In (before ++ String NUL after) pieces ->
          has_char NUL before = false ->
          In (Fwd before) (trace (runCommandAndPrint w cmd n)))
    /\ (has_char NUL (child_stdout child) = false ->
        stdout_of (trace (runCommandAndPrint w cmd n)) =
          if nonempty (child_stdout child) then child_stdout child
          else no_output_marker).
Proof.
  intros Hspawn.
  destruct (runCommandAndPrint_pieces _ _ _ Hspawn)
    as (pieces & Hjoin & Hok & Htrace).
  exists pieces. split; [exact Hjoin|]. split; [exact Hok|].
  assert (Hout : stdout_of (trace (runCommandAndPrint w cmd n)) =
                   (if nonempty (child_stdout child)
                    then join (map c_str pieces) else no_output_marker)).
  { rewrite Htrace. cbn [stdout_of]. rewrite !stdout_of_app, stdout_of_forward.
    destruct (nonempty (child_stdout child)) eqn:Hne.
    - destruct (Z.eqb (pclose_ret child) (-1)); cbn [stdout_of];
        now rewrite ?append_nil_r.
    - assert (Hnil : pieces = []).
      { apply join_empty; [exact Hok|]. rewrite Hjoin.
        unfold nonempty in Hne. apply negb_false_iff in Hne.
        now apply String.eqb_eq in Hne. }
      subst pieces.
      destruct (Z.eqb (pclose_ret child) (-1)); cbn [stdout_of map join];
        now rewrite ?append_nil_r. }
  split; [|split; [exact Hout|split; [|split]]].
  - rewrite Htrace. cbn [filter is_fwd]. rewrite !filter_app, filter_fwd_forward.
    destruct (nonempty (child_stdout child)),
      (Z.eqb (pclose_ret child) (-1)); cbn [filter is_fwd app];
      now rewrite app_nil_r.
  - intros piece Hin Htext. rewrite Htrace. right. apply in_or_app. left.
    apply in_map_iff. exists piece. split; [|exact Hin].
    unfold forward. now rewrite c_str_text.
  - intros before after Hin Htext. rewrite Htrace. right.
    apply in_or_app. left.
    apply in_map_iff. exists (before ++ String NUL after).
    split; [|exact Hin]. unfold forward. now rewrite c_str_cut.
  - intros Htext. rewrite stdout_of_query_text. unfold section_text.
    rewrite Hspawn. unfold shown. now rewrite fgets_loop_text.
Qed.

(** C10: the exit status of a backend plays no part.  [pclose] returns
    -1 only when closing fails, and only then does the query return -1
    and write a line to [std::cerr].  For a backend that exited, with
    whatever code, the query returns 0 and does exactly this: it starts
    the backend, forwards the pieces of its output, or writes the
    [(no output)] line when there is none, and closes the stream; it
    writes no error line.  Two backends with the same output and
    different exit codes give the same run of the query, and the program
    still exits with status 0. *)
Theorem backend_exit_status_ignored (cmd : string) (n : nat) (child : Child) :
  popen w n cmd = Some child ->
  (result (runCommandAndPrint w cmd n) = (-1)%Z <-> pclose_ret child = (-1)%Z)
  /\ (existsb is_stderr (trace (runCommandAndPrint w cmd n)) = true
      <-> pclose_ret child = (-1)%Z)
  /\ (forall code,
        pclose_ret child = exit_status code ->
        result (runCommandAndPrint w cmd n) = 0%Z
        /\ (exists pieces,
              join pieces = child_stdout child
              /\ pieces_ok pieces = true
              /\ trace (runCommandAndPrint w cmd n) =
                   (EPopen cmd
                    :: map forward pieces
                    ++ (if nonempty (child_stdout child) then []
                        else [Cout no_output_marker])
                    ++ [EPclose])%list)
        /\ (forall w' child' code',
              popen w' n cmd = Some child' ->
              child_stdout child' = child_stdout child ->
              pclose_ret child' = exit_status code' ->
              runCommandAndPrint w' cmd n = runCommandAndPrint w cmd n))
  /\ (forall v4l2CtlPath, located w = Some v4l2CtlPath -> exit_code w = 0%Z).
Proof.
  intros Hspawn.
  destruct (runCommandAndPrint_pieces _ _ _ Hspawn)
    as (pieces & Hjoin & Hok & Htrace).
  assert (Hresult : result (runCommandAndPrint w cmd n) =
                      if Z.eqb (pclose_ret child) (-1) then (-1)%Z else 0%Z).
  { now rewrite runCommandAndPrint_eq, Hspawn. }
  split; [|split; [|split]].
  - rewrite Hresult.
    destruct (Z.eqb_spec (pclose_ret child) (-1)); split; congruence.
  - rewrite Htrace. cbn [existsb is_stderr orb]. rewrite !existsb_app.
    assert (Hfwd : existsb is_stderr (map forward pieces) = false).
    { clear. induction pieces as [|p more IH]; [reflexivity | exact IH]. }
    rewrite Hfwd. cbn [existsb is_stderr orb].
    destruct (nonempty (child_stdout child));
      destruct (Z.eqb_spec (pclose_ret child) (-1));
      cbn [existsb is_stderr orb]; split; congruence.
  - intros code Hcode. split; [|split].
    + rewrite Hresult, Hcode, exit_status_not_failure. reflexivity.
    + exists pieces. split; [exact Hjoin|]. split; [exact Hok|].
      rewrite Htrace, Hcode, exit_status_not_failure. reflexivity.
    + intros w' child' code' Hspawn' Hout Hcode'.
      rewrite !runCommandAndPrint_eq, Hspawn, Hspawn'.
      unfold section_events.
      rewrite Hout, Hcode, Hcode', !exit_status_not_failure. reflexivity.
  - apply exit_code_located.
Qed.

End Pieces.

Lemma fgets_fill_piece room piece rest :
  String.length piece <= room ->
  newline_only_last piece = true ->
  rest = "" \/ ends_with_newline piece = true \/ String.length piece = room ->
  fgets_fill room (piece ++ rest) = (piece, rest).
Proof.
  revert room. induction piece as [|c piece IH]; intros room Hlen Hnl Hstop.
  - cbn [append]. destruct Hstop as [->|[H|H]].
    + destruct room; reflexivity.
    + discriminate.
    + cbn in H. subst room. reflexivity.
  - cbn [String.length] in Hlen. destruct room as [|room]; [lia|].
    cbn [append fgets_fill]. cbn [newline_only_last] in Hnl.
    destruct (Ascii.eqb c LF) eqn:Hc.
    + apply String.eqb_eq in Hnl. now subst piece.
    + rewrite IH; [reflexivity | lia | exact Hnl |].
      destruct Hstop as [H|[H|H]]; [now left | right; left | right; right].
      * unfold ends_with_newline in *. cbn [last_char] in H.
        destruct piece as [|d piece]; [|exact H].
        rewrite Hc in H. discriminate.
      * cbn [String.length] in H. lia.
Qed.

(** A stream has one cutting into such pieces. *)
Lemma pieces_unique pieces1 pieces2 :
  pieces_ok pieces1 = true -> pieces_ok pieces2 = true ->
  join pieces1 = join pieces2 -> pieces1 = pieces2.
Proof.
  assert (Hfirst : forall piece more,
             pieces_ok (piece :: more) = true ->
             fgets_fill (sizeof_line - 1) (join (piece :: more)) =
               (piece, join more)).
  { intros piece more Hok. cbn [pieces_ok] in Hok.
    apply andb_prop in Hok. destruct Hok as [Hok Hmore].
    apply andb_prop in Hok. destruct Hok as [Hok Hstop].
    apply andb_prop in Hok. destruct Hok as [Hok Hnl].
    apply andb_prop in Hok. destruct Hok as [Hne Hlen].
    apply Nat.leb_le in Hlen. cbn [join].
    apply fgets_fill_piece; [exact Hlen | exact Hnl |].
    destruct more as [|next more]; [now left|].
    apply orb_prop in Hstop. destruct Hstop as [H|H].
    - right. now left.
    - right. right. now apply Nat.eqb_eq in H. }
  revert pieces2. induction pieces1 as [|piece1 more1 IH]; intros pieces2 H1 H2 Hjoin.
  - symmetry. apply join_empty; [exact H2 | now rewrite <- Hjoin].
  - destruct pieces2 as [|piece2 more2].
    + apply join_empty; [exact H1 | exact Hjoin].
    + pose proof (Hfirst _ _ H1) as E1. pose proof (Hfirst _ _ H2) as E2.
      rewrite Hjoin, E2 in E1. injection E1 as -> Hrest.
      f_equal. apply IH; [| |now symmetry].
      * cbn [pieces_ok] in H1. now apply andb_prop in H1.
      * cbn [pieces_ok] in H2. now apply andb_prop in H2.
Qed.

(** ** The locator and what [access] accepts *)

Definition S_IFDIR : Z := 16384.
Definition S_IFREG : Z := 32768.

(** A regular file, as [S_ISREG] on the answer of [stat] tells. *)
Definition is_regular_file (w : World) (path : string) : bool :=
  match stat w path with
  | None => false
  | Some mode => Z.eqb (Z.land mode S_IFMT) S_IFREG
  end.

Module Cases.

(** [/opt/a/v4l2-ctl] is a directory that may be searched, so
    [access(.., X_OK)] is 0 for it; [/usr/bin/v4l2-ctl] is the tool. *)
Definition directory_first : World := {|
  getenv := Samples.path_is "/opt/a:/usr/bin";
  access_X_OK := fun path =>
    if String.eqb path "/opt/a/v4l2-ctl" then 0%Z
    else if String.eqb path "/usr/bin/v4l2-ctl" then 0%Z
    else (-1)%Z;
  glob := glob Samples.two_nodes;
  stat := fun path =>
    if String.eqb path "/opt/a/v4l2-ctl" then Some (S_IFDIR + 493)%Z
    else if String.eqb path "/usr/bin/v4l2-ctl" then Some (S_IFREG + 493)%Z
    else stat Samples.two_nodes path;
  popen := popen Samples.two_nodes
|}.

(** The search path starts with an empty entry and the tool is also
    installed in the root directory. *)
Definition empty_entry_first : World := {|
  getenv := Samples.path_is ":/usr/bin";
  access_X_OK := fun path =>
    if String.eqb path "/v4l2-ctl" then 0%Z
    else if String.eqb path "/usr/bin/v4l2-ctl" then 0%Z
    else (-1)%Z;
  glob := glob Samples.two_nodes;
  stat := fun path =>
    if String.eqb path "/v4l2-ctl" then Some (S_IFREG + 493)%Z
    else if String.eqb path "/usr/bin/v4l2-ctl" then Some (S_IFREG + 493)%Z
    else stat Samples.two_nodes path;
  popen := popen Samples.two_nodes
|}.

(** A backend that prints a banner of its own. *)
Definition banner_text : string :=
  rule ++ nl ++ "DEVICE: /dev/video9" ++ nl ++ rule ++ nl.

Definition banner_backend : World := {|
  getenv := getenv Samples.two_nodes;
  access_X_OK := access_X_OK Samples.two_nodes;
  glob := glob Samples.two_nodes;
  stat := stat Samples.two_nodes;
  popen := fun _ _ => Some (Samples.text_child banner_text)
|}.

(** A backend whose second line holds a NUL byte. *)
Definition three_lines : list string :=
  [ "a" ++ nl; String "b" (String NUL (String "c" nl)); "d" ++ nl ].

Definition three_line_backend : World := {|
  getenv := getenv Samples.two_nodes;
  access_X_OK := access_X_OK Samples.two_nodes;
  glob := glob Samples.two_nodes;
  stat := stat Samples.two_nodes;
  popen := fun _ _ =>
    Some {| child_stdout := join three_lines;
            pclose_ret := exit_status 3; pclose_strerror := "" |}
|}.

End Cases.

(** The locator answers with a directory when [access] accepts it, and
    never looks at the entry after it, where the tool is; and it passes
    over an empty entry of the search path although the candidate made
    from it is an executable file. *)
Lemma locator_takes_directory_and_skips_empty_entry :
  (located Cases.directory_first = Some "/opt/a/v4l2-ctl"
   /\ is_regular_file Cases.directory_first "/opt/a/v4l2-ctl" = false
   /\ locate_events Cases.directory_first =
        [EGetenv "PATH"; EAccess "/opt/a/v4l2-ctl"]
   /\ executable Cases.directory_first "/usr/bin/v4l2-ctl" = true
   /\ is_regular_file Cases.directory_first "/usr/bin/v4l2-ctl" = true)
  /\ (split_path ":/usr/bin" = [""; "/usr/bin"]
      /\ executable Cases.empty_entry_first (candidate_of "") = true
      /\ is_regular_file Cases.empty_entry_first (candidate_of "") = true
      /\ located Cases.empty_entry_first = Some "/usr/bin/v4l2-ctl"
      /\ located Cases.empty_entry_first <> Some (candidate_of "")).
Proof.
  split.
  - repeat split; vm_compute; reflexivity.
  - assert (H : located Cases.empty_entry_first = Some "/usr/bin/v4l2-ctl")
      by (vm_compute; reflexivity).
    repeat split; try (vm_compute; reflexivity).
    rewrite H. discriminate.
Qed.

(** ** The banners in the bytes of standard output *)

(** The lines of a text: what stands between its newlines. *)
Fixpoint split_lines (s : string) : list string :=
  match s with
  | "" => [""]
  | String c rest =>
      if Ascii.eqb c LF then "" :: split_lines rest
      else match split_lines rest with
           | first :: others => String c first :: others
           | [] => [String c ""]
           end
  end.

Definition is_banner_text (line : string) : bool :=
  starts_with "DEVICE: " line.

(** The lines of a text that start as the [DEVICE:] line of a banner. *)
Definition stdout_banner_lines (s : string) : list string :=
  filter is_banner_text (split_lines s).

Lemma split_lines_not_nil s : split_lines s <> [].
Proof.
  destruct s as [|c rest]; cbn [split_lines]; [discriminate|].
  destruct (Ascii.eqb c LF); [discriminate|].
  destruct (split_lines rest); discriminate.
Qed.

Lemma split_lines_app_nl a b :
  split_lines ((a ++ nl) ++ b) = (split_lines a ++ split_lines b)%list.
Proof.
  induction a as [|c a IH]; [reflexivity|].
  cbn [append split_lines]. rewrite IH.
  destruct (Ascii.eqb c LF); [reflexivity|].
  pose proof (split_lines_not_nil a) as Hne.
  destruct (split_lines a); [congruence | reflexivity].
Qed.

Lemma split_lines_line s : has_char LF s = false -> split_lines s = [s].
Proof.
  induction s as [|c s IH]; [reflexivity|].
  cbn [has_char split_lines]. intros H. apply orb_false_elim in H.
  destruct H as [Hc Hs]. rewrite Hc, (IH Hs). reflexivity.
Qed.

Lemma banner_lines_text text rest :
  stdout_banner_lines ((text ++ nl) ++ rest) =
    (stdout_banner_lines text ++ stdout_banner_lines rest)%list.
Proof.
  unfold stdout_banner_lines. now rewrite split_lines_app_nl, filter_app.
Qed.

Lemma banner_lines_line line rest :
  has_char LF line = false ->
  stdout_banner_lines ((line ++ nl) ++ rest) =
    ((if is_banner_text line then [line] else [])
     ++ stdout_banner_lines rest)%list.
Proof.
  intros H. rewrite banner_lines_text. f_equal.
  unfold stdout_banner_lines. now rewrite (split_lines_line _ H).
Qed.

Definition intro_body : string :=
  substring 0 (String.length intro_banner - 1) intro_banner.

Lemma intro_banner_body : intro_banner = intro_body ++ nl.
Proof. vm_compute. reflexivity. Qed.

Lemma intro_body_no_banner : stdout_banner_lines intro_body = [].
Proof. vm_compute. reflexivity. Qed.

Lemma append_nil_l (s : string) : "" ++ s = s.
Proof. reflexivity. Qed.

Section Banners.

Variable w : World.

Lemma banner_lines_scan pathv rest :
  (forall path,
      In path (filter (is_char_device w) pathv) -> has_char LF path = false) ->
  stdout_banner_lines (stdout_of (scan_events w pathv) ++ rest) =
    stdout_banner_lines rest.
Proof.
  induction pathv as [|path more IH]; intros Hpaths; [reflexivity|].
  cbn [scan_events stdout_of filter] in *. rewrite stdout_of_app.
  destruct (is_char_device w path).
  - cbn [stdout_of]. unfold listing_line.
    replace ((("  - " ++ path ++ nl) ++ "") ++ stdout_of (scan_events w more))
      with (("  - " ++ path) ++ nl ++ stdout_of (scan_events w more))
      by now rewrite !append_assoc, ?append_nil_r.
    replace ((("  - " ++ path) ++ nl ++ stdout_of (scan_events w more)) ++ rest)
      with ((("  - " ++ path) ++ nl) ++ stdout_of (scan_events w more) ++ rest)
      by now rewrite !append_assoc.
    rewrite banner_lines_line.
    + cbn [is_banner_text app]. apply IH. intros p Hp. apply Hpaths. now right.
    + rewrite has_char_app. rewrite (Hpaths path (or_introl eq_refl)).
      reflexivity.
  - cbn [stdout_of]. rewrite append_nil_l. now apply IH.
Qed.

Lemma rule_is_a_line : has_char LF rule = false.
Proof. vm_compute. reflexivity. Qed.

Lemma banner_lines_report v4l2CtlPath devices n :
  (forall device, In device devices -> has_char LF device = false) ->
  (forall m device,
      In device devices ->
      stdout_banner_lines (section_text w m (cmd_all v4l2CtlPath device)) = []
      /\ stdout_banner_lines
           (section_text w m (cmd_formats v4l2CtlPath device)) = []) ->
  stdout_banner_lines (report_text w v4l2CtlPath devices n) =
    map (fun device => "DEVICE: " ++ device) devices.
Proof.
  revert n. induction devices as [|dev more IH]; intros n Hpaths Hquiet;
    [reflexivity|].
  cbn [report_text map].
  set (rest := report_text w v4l2CtlPath more (S (S n))).
  set (sec1 := section_text w n (cmd_all v4l2CtlPath dev)).
  set (sec2 := section_text w (S n) (cmd_formats v4l2CtlPath dev)).
  unfold banner_line, label_all, label_formats.
  set (la := ">>> BASIC INFORMATION AND CAPABILITIES (v4l2-ctl --all)").
  set (lf := ">>> SUPPORTED FORMATS AND RESOLUTIONS (v4l2-ctl --list-formats-ext)").
  replace (rule ++ nl ++ ("DEVICE: " ++ dev ++ nl) ++ rule ++ nl ++ nl
           ++ (la ++ nl) ++ sec1 ++ nl ++ (lf ++ nl) ++ sec2 ++ nl ++ rest)
    with ((rule ++ nl)
          ++ ((("DEVICE: " ++ dev) ++ nl)
              ++ ((rule ++ nl)
                  ++ (("" ++ nl)
                      ++ ((la ++ nl)
                          ++ ((sec1 ++ nl)
                              ++ ((lf ++ nl) ++ ((sec2 ++ nl) ++ rest))))))))
    by now rewrite !append_assoc.
  rewrite (banner_lines_line rule) by apply rule_is_a_line.
  rewrite (banner_lines_line ("DEVICE: " ++ dev)).
  2:{ rewrite has_char_app, (Hpaths dev (or_introl eq_refl)). reflexivity. }
  rewrite (banner_lines_line rule) by apply rule_is_a_line.
  rewrite (banner_lines_line "") by reflexivity.
  rewrite (banner_lines_line la) by reflexivity.
  rewrite (banner_lines_text sec1).
  rewrite (banner_lines_line lf) by reflexivity.
  rewrite (banner_lines_text sec2).
  destruct (Hquiet n dev (or_introl eq_refl)) as [H1 _].
  destruct (Hquiet (S n) dev (or_introl eq_refl)) as [_ H2].
  subst sec1 sec2. rewrite H1, H2.
  assert (Hrule : is_banner_text rule = false) by reflexivity.
  assert (Hdev : is_banner_text ("DEVICE: " ++ dev) = true) by reflexivity.
  assert (Hla : is_banner_text la = false) by reflexivity.
  assert (Hlf : is_banner_text lf = false) by reflexivity.
  assert (Hnil : is_banner_text "" = false) by reflexivity.
  rewrite Hrule, Hdev, Hla, Hlf, Hnil. cbn [app]. f_equal.
  subst rest. apply IH.
  - intros device Hin. apply Hpaths. now right.
  - intros m device Hin. apply Hquiet. now right.
Qed.

Lemma stdout_of_run_devices v4l2CtlPath :
  located w = Some v4l2CtlPath ->
  device_set w <> [] ->
  stdout_of (trace (run w)) =
    (intro_body ++ nl)
    ++ ("Discovered video devices:" ++ nl)
    ++ stdout_of (scan_events w (gl_pathv (glob w video_pattern)))
    ++ ("" ++ nl)
    ++ report_text w v4l2CtlPath (device_set w) 0.
Proof.
  intros Hloc Hdev. rewrite <- intro_banner_body.
  assert (Hquiet : stdout_of (locate_events w) = "").
  { apply stdout_of_silent. now apply locate_events_quiet. }
  rewrite run_eq, Hloc.
  destruct (glob_matched w) eqn:Hglob.
  - destruct (device_set w) as [|dev more] eqn:Hset; [congruence|].
    unfold trace. cbn [fst snd].
    rewrite !stdout_of_app, Hquiet, stdout_of_intro, stdout_of_report_text.
    unfold discovery_events. cbn [stdout_of]. rewrite stdout_of_app.
    cbn [stdout_of]. now rewrite !append_assoc, ?append_nil_r.
  - rewrite device_set_eq, Hglob in Hdev. congruence.
Qed.

(** C2, as the code has it: with the backend located, the banner lines,
    section labels and backend starts that the program makes are, in
    this order, those of the discovered devices taken in discovery
    order: for each device its banner, the general-capabilities label,
    the [--all] query, the formats label and the [--list-formats-ext]
    query; so a run over N devices writes N banners and starts 2N
    backends.  Text forwarded from a backend is copied as it is: the
    [DEVICE:] lines found in the bytes of standard output are those N
    banners, in discovery order, when no device path holds a newline and
    no line of the forwarded text starts with [DEVICE: ]. *)
Theorem report_follows_discovery (v4l2CtlPath : string) :
  located w = Some v4l2CtlPath ->
  filter is_marker (trace (run w)) =
    flat_map (device_markers v4l2CtlPath) (device_set w)
  /\ banner_lines (trace (run w)) = map banner_line (device_set w)
  /\ popen_cmds (trace (run w)) = planned_cmds v4l2CtlPath (device_set w)
  /\ List.length (banner_lines (trace (run w))) = List.length (device_set w)
  /\ List.length (popen_cmds (trace (run w))) = 2 * List.length (device_set w)
  /\ (device_set w <> [] ->
      (forall device, In device (device_set w) -> has_char LF device = false) ->
      (forall m device,
          In device (device_set w) ->
          stdout_banner_lines
            (section_text w m (cmd_all v4l2CtlPath device)) = []
          /\ stdout_banner_lines
               (section_text w m (cmd_formats v4l2CtlPath device)) = []) ->
      stdout_banner_lines (stdout_of (trace (run w))) =
        map (fun device => "DEVICE: " ++ device) (device_set w)).
Proof.
  intros Hloc.
  pose proof (markers_run w _ Hloc) as Hmarkers.
  pose proof (banner_lines_run w _ Hloc) as Hbanners.
  pose proof (popen_cmds_run w _ Hloc) as Hcmds.
  split; [exact Hmarkers|]. split; [exact Hbanners|]. split; [exact Hcmds|].
  split; [|split].
  - rewrite Hbanners. apply length_map.
  - rewrite Hcmds. apply planned_cmds_length.
  - intros Hdev Hpaths Hquiet.
    rewrite (stdout_of_run_devices _ Hloc Hdev).
    rewrite banner_lines_text, intro_body_no_banner.
    rewrite banner_lines_line by reflexivity.
    rewrite banner_lines_scan.
    + rewrite banner_lines_line by reflexivity.
      cbn [is_banner_text starts_with app].
      now apply banner_lines_report.
    + intros path Hin. apply Hpaths. rewrite device_set_eq.
      destruct (glob_matched w) eqn:Hglob; [exact Hin|].
      rewrite device_set_eq, Hglob in Hdev. congruence.
Qed.

End Banners.

(** One device and a backend that prints a banner for each query: the
    bytes of standard output hold three [DEVICE:] lines. *)
Lemma forwarded_banner_is_a_banner_in_the_output :
  located Cases.banner_backend = Some "/usr/bin/v4l2-ctl"
  /\ device_set Cases.banner_backend = ["/dev/video0"]
  /\ stdout_banner_lines (stdout_of (trace (run Cases.banner_backend))) =
       [ "DEVICE: /dev/video0"; "DEVICE: /dev/video9"; "DEVICE: /dev/video9" ]
  /\ List.length
       (stdout_banner_lines (stdout_of (trace (run Cases.banner_backend))))
       <> List.length (device_set Cases.banner_backend).
Proof.
  assert (H : stdout_banner_lines
                (stdout_of (trace (run Cases.banner_backend))) =
              [ "DEVICE: /dev/video0"; "DEVICE: /dev/video9";
                "DEVICE: /dev/video9" ])
    by (vm_compute; reflexivity).
  split; [vm_compute; reflexivity|]. split; [reflexivity|].
  split; [exact H|]. rewrite H. cbn. discriminate.
Qed.

(** ** The report, the pieces and the exit status on the sample hosts *)

Lemma report_follows_discovery_two_nodes :
  located Samples.two_nodes = Some "/usr/bin/v4l2-ctl"
  /\ banner_lines (trace (run Samples.two_nodes)) =
       map banner_line (device_set Samples.two_nodes)
  /\ List.length (popen_cmds (trace (run Samples.two_nodes))) =
       2 * List.length (device_set Samples.two_nodes)
  /\ stdout_banner_lines (stdout_of (trace (run Samples.two_nodes))) =
       map (fun device => "DEVICE: " ++ device) (device_set Samples.two_nodes).
Proof.
  assert (H : located Samples.two_nodes = Some "/usr/bin/v4l2-ctl")
    by (vm_compute; reflexivity).
  destruct (report_follows_discovery Samples.two_nodes _ H)
    as (_ & Hbanners & _ & _ & Hcount & Hbytes).
  refine (conj H (conj Hbanners (conj Hcount (Hbytes _ _ _)))).
  - discriminate.
  - intros device [<-|[]]. reflexivity.
  - intros m device _. destruct m; split; vm_compute; reflexivity.
Defined.

Lemma section_forwards_each_piece_three_lines :
  let cmd := cmd_all "/usr/bin/v4l2-ctl" "/dev/video0" in
  popen Cases.three_line_backend 0 cmd =
    Some {| child_stdout := join Cases.three_lines;
            pclose_ret := exit_status 3; pclose_strerror := "" |}
  /\ filter is_fwd (trace (runCommandAndPrint Cases.three_line_backend cmd 0)) =
       [Fwd ("a" ++ nl); Fwd "b"; Fwd ("d" ++ nl)]
  /\ In (Fwd ("d" ++ nl))
        (trace (runCommandAndPrint Cases.three_line_backend cmd 0))
  /\ In (Fwd "b")
        (trace (runCommandAndPrint Cases.three_line_backend cmd 0)).
Proof.
  cbv zeta.
  destruct (section_forwards_each_piece Cases.three_line_backend
              (cmd_all "/usr/bin/v4l2-ctl" "/dev/video0") 0 _ eq_refl)
    as (pieces & Hjoin & Hok & Hfwd & _ & Hwhole & Hcut & _).
  assert (Hpieces : pieces = Cases.three_lines).
  { apply pieces_unique; [exact Hok | vm_compute; reflexivity | exact Hjoin]. }
  subst pieces.
  refine (conj eq_refl (conj Hfwd (conj (Hwhole ("d" ++ nl) _ _)
                                        (Hcut "b" (String "c" nl) _ _)))).
  - right. right. now left.
  - vm_compute. reflexivity.
  - right. now left.
  - reflexivity.
Defined.

Lemma backend_exit_status_ignored_three_lines :
  let cmd := cmd_all "/usr/bin/v4l2-ctl" "/dev/video0" in
  popen Cases.three_line_backend 0 cmd =
    Some {| child_stdout := join Cases.three_lines;
            pclose_ret := exit_status 3; pclose_strerror := "" |}
  /\ result (runCommandAndPrint Cases.three_line_backend cmd 0) = 0%Z
  /\ exists pieces,
       join pieces = join Cases.three_lines
       /\ pieces_ok pieces = true
       /\ trace (runCommandAndPrint Cases.three_line_backend cmd 0) =
            (EPopen cmd :: map forward pieces ++ [] ++ [EPclose])%list.
Proof.
  cbv zeta.
  destruct (backend_exit_status_ignored Cases.three_line_backend
              (cmd_all "/usr/bin/v4l2-ctl" "/dev/video0") 0 _ eq_refl)
    as (_ & _ & Hexit & _).
  destruct (Hexit 3%Z eq_refl) as (Hzero & Hpieces & _).
  exact (conj eq_refl (conj Hzero Hpieces)).
Defined.
